(** * vscode-setup-check: a shallow embedding of [index.js]

    The verification script runs a fixed sequence of probes.  Every probe
    shells out through [executeCommand], classifies the text it gets back,
    prints through [printResult] and appends to the global [results] record.
    The embedding threads that global state explicitly: the six result
    lists, the console, and the list of commands handed to [execSync].

    Conventions.
    - A JavaScript string is a [string] holding its UTF-8 encoding, as the
      literals of this file do; the output of a command is decoded from
      UTF-8 by [execSync], so nothing is lost.  [trim] strips every white
      space and line terminator of ECMAScript, whatever its length in
      bytes.  [toLowerCase] depends on the Unicode tables of the engine
      and is taken from the environment.
    - [null] and [undefined] are [None]; a condition [if (x)] on a string or
      null value is [truthy x].
    - The numbers of [printSummary] are IEEE binary64 values, computed with
      the operations of [SpecFloat] at precision 53.
    - What the operating system answers is a parameter, the record [Env]. *)

From Stdlib Require Import String Ascii List ZArith Lia Bool Arith.
From Stdlib Require Import Numbers.DecimalString.
From Stdlib Require Import Floats.SpecFloat.
Import ListNotations.
Local Open Scope list_scope.
Local Open Scope string_scope.

(* ================================================================== *)
(** * JavaScript primitives used by the script *)
(* ================================================================== *)

Module Js.

Definition dq : string := String (ascii_of_nat 34) EmptyString.
Definition nl : string := String (ascii_of_nat 10) EmptyString.
Definition esc : string := String (ascii_of_nat 27) EmptyString.
Definition newline : ascii := ascii_of_nat 10.

(** [if (s)] for a string: the empty string is falsy. *)
Definition nonEmpty (s : string) : bool :=
  match s with EmptyString => false | String _ _ => true end.

(** [if (x)] for a value that is a string or null. *)
Definition truthy (x : option string) : bool :=
  match x with Some s => nonEmpty s | None => false end.

(** [x || d] for a value that is a string or undefined. *)
Definition orElse (x : option string) (d : string) : string :=
  if truthy x then match x with Some s => s | None => d end else d.

(** The white space and the line terminators that [String.prototype.trim]
    strips, by the bytes of their UTF-8 encoding.  One byte: TAB, LF, VT,
    FF, CR and the space. *)
Definition isWhiteSpace (c : ascii) : bool :=
  let n := nat_of_ascii c in
  ((n =? 9) || (n =? 10) || (n =? 11) || (n =? 12) || (n =? 13) || (n =? 32))%nat.

(** Two bytes: U+00A0, the no-break space. *)
Definition isWhiteSpace2 (c1 c2 : ascii) : bool :=
  ((nat_of_ascii c1 =? 194) && (nat_of_ascii c2 =? 160))%nat.

(** Three bytes: U+1680, U+2000 to U+200A, U+2028, U+2029, U+202F, U+205F,
    U+3000 and U+FEFF. *)
Definition isWhiteSpace3 (c1 c2 c3 : ascii) : bool :=
  let a := nat_of_ascii c1 in
  let b := nat_of_ascii c2 in
  let c := nat_of_ascii c3 in
  (((a =? 225) && (b =? 154) && (c =? 128))
   || ((a =? 226) && (b =? 128)
       && (((128 <=? c) && (c <=? 138)) || (c =? 168) || (c =? 169) || (c =? 175)))
   || ((a =? 226) && (b =? 129) && (c =? 159))
   || ((a =? 227) && (b =? 128) && (c =? 128))
   || ((a =? 239) && (b =? 187) && (c =? 191)))%nat.

(** The text without the white space it starts with.  With [backwards] the
    text is read from its end, last byte first, and so are the encodings. *)
Fixpoint stripFront (backwards : bool) (s : string) : string :=
  match s with
  | EmptyString => EmptyString
  | String c1 r1 =>
      if isWhiteSpace c1 then stripFront backwards r1
      else
        match r1 with
        | EmptyString => s
        | String c2 r2 =>
            if (if backwards then isWhiteSpace2 c2 c1 else isWhiteSpace2 c1 c2)
            then stripFront backwards r2
            else
              match r2 with
              | EmptyString => s
              | String c3 r3 =>
                  if (if backwards then isWhiteSpace3 c3 c2 c1
                      else isWhiteSpace3 c1 c2 c3)
                  then stripFront backwards r3
                  else s
              end
        end
  end.

Definition reverse (s : string) : string :=
  string_of_list_ascii (List.rev (list_ascii_of_string s)).

(** [trimStart], [trimEnd] and [trim] of [String.prototype]. *)
Definition trimStart (s : string) : string := stripFront false s.

Definition trimEnd (s : string) : string :=
  reverse (stripFront true (reverse s)).

Definition trim (s : string) : string := trimEnd (trimStart s).

(** Lower case of the ASCII letters, the part of [toLowerCase] that does
    not depend on the engine. *)
Definition toLowerChar (c : ascii) : ascii :=
  let n := nat_of_ascii c in
  if ((65 <=? n) && (n <=? 90))%nat then ascii_of_nat (n + 32) else c.

Fixpoint asciiLowerCase (s : string) : string :=
  match s with
  | EmptyString => EmptyString
  | String c s' => String (toLowerChar c) (asciiLowerCase s')
  end.

(** [s.split('\n')]: never empty, the empty string gives one empty piece. *)
Fixpoint split_nl (s : string) : list string :=
  match s with
  | EmptyString => [EmptyString]
  | String c s' =>
      if Ascii.eqb c newline then EmptyString :: split_nl s'
      else match split_nl s' with
           | [] => [String c EmptyString]
           | l :: ls => String c l :: ls
           end
  end.

(** [s.includes(sub)] on strings: [sub] occurs somewhere in [s]. *)
Fixpoint includes (s sub : string) : bool :=
  match s with
  | EmptyString => String.prefix sub EmptyString
  | String _ s' => String.prefix sub s || includes s' sub
  end.

(** [arr.includes(x)] on an array of strings: some element equals [x]. *)
Definition arrayIncludes (arr : list string) (x : string) : bool :=
  existsb (String.eqb x) arr.

(** [arr[0]] of a non-empty array of strings. *)
Definition first (arr : list string) : string :=
  match arr with [] => EmptyString | x :: _ => x end.

(** [s.repeat(n)]. *)
Fixpoint repeat (s : string) (n : nat) : string :=
  match n with O => EmptyString | S n' => s ++ repeat s n' end.

(** A length or an index inside a template literal. *)
Definition showNat (n : nat) : string :=
  NilEmpty.string_of_uint (Nat.to_uint n).

(** An integer-valued number inside a template literal. *)
Definition showZ (z : Z) : string :=
  NilZero.string_of_int (Z.to_int z).

(** ** binary64 arithmetic *)

Definition prec : Z := 53.
Definition emax : Z := 1024.

(** The number holding an array length. *)
Definition number_of_nat (n : nat) : spec_float :=
  binary_normalize prec emax (Z.of_nat n) 0 false.

Definition fdiv : spec_float -> spec_float -> spec_float := SFdiv prec emax.
Definition fmul : spec_float -> spec_float -> spec_float := SFmul prec emax.

(** [Math.round]: the integer nearest to the argument, a tie going up.
    The value of a finite number [m * 2^e] is exact, so the result is
    [floor (m * 2^e + 1/2)].  The script only rounds numbers between 0 and
    100; NaN and the infinities, which [Math.round] returns unchanged, do
    not arise there and are sent to 0. *)
Definition Math_round (x : spec_float) : Z :=
  match x with
  | S754_finite s m e =>
      let v := if s then Z.neg m else Z.pos m in
      if (0 <=? e)%Z then (v * 2 ^ e)%Z
      else ((2 * v + 2 ^ (- e)) / 2 ^ (- e + 1))%Z
  | _ => 0%Z
  end.

End Js.

Import Js.

(* ================================================================== *)
(** * Data model *)
(* ================================================================== *)

(** The first argument of [printResult]. *)
Inductive Status := success | failure | warning.

(** The values of [options.criticality]. *)
Inductive Criticality := CRITICAL | IMPORTANT | OPTIONAL.

(** [options.fix] is an array of steps or a single string. *)
Inductive Fix := FixSteps (steps : list string) | FixText (text : string).

(** The [options] argument of [printResult]; an absent key is [None]. *)
Record Options := mkOptions {
  criticality : option Criticality;
  fix_ : option Fix;   (* the key [fix], a reserved word here *)
  link : option string
}.

Definition noOptions : Options := mkOptions None None None.

(** The global [results] object. *)
Record Results := mkResults {
  passed : list string;
  failed : list string;
  warnings : list string;
  critical : list string;
  important : list string;
  optional : list string
}.

Definition emptyResults : Results := mkResults [] [] [] [] [] [].

(** One call of [printResult], with the arguments it received. *)
Record Outcome := mkOutcome {
  o_status : Status;
  o_message : string;
  o_details : string;
  o_options : Options
}.

(** What reaches the terminal: [console.log] and [console.clear]. *)
Inductive ConsoleEvent := Log (line : string) | Clear.

(** The state threaded through the script.  [console] and [executed] are
    the effects on the terminal and on the operating system, in order;
    [reported] is the history of [printResult] calls, which the script
    itself never reads. *)
Record State := mkState {
  results : Results;
  console : list ConsoleEvent;
  executed : list string;
  reported : list Outcome
}.

Definition initialState : State := mkState emptyResults [] [] [].

(** The machine the script runs on.  [execSync history cmd] is the standard
    output of [cmd] when it is run after the commands of [history], or
    [None] when [execSync] throws (missing binary, non-zero exit).
    [path_join] is [path.join] of the platform and [toLowerCase] is
    [String.prototype.toLowerCase] of the engine. *)
Record Env := mkEnv {
  execSync : list string -> string -> option string;
  existsSync : string -> bool;
  platform : string;
  homedir : string;
  cwd : string;
  argv : list string;
  env_LOCALAPPDATA : option string;
  env_PROGRAMFILES : option string;
  env_PROGRAMFILES_X86 : option string;
  path_join : list string -> string;
  toLowerCase : string -> string
}.

(** ** The state monad of the script *)

Definition M (A : Type) : Type := State -> A * State.

Definition ret {A} (a : A) : M A := fun st => (a, st).

Definition bind {A B} (c : M A) (k : A -> M B) : M B :=
  fun st => let (a, st') := c st in k a st'.

Declare Scope script_scope.
Delimit Scope script_scope with script.
Notation "x <- c ;; k" := (bind c (fun x => k))
  (at level 61, c at next level, right associativity) : script_scope.
Notation "c ;; k" := (bind c (fun _ => k))
  (at level 61, right associativity) : script_scope.
Local Open Scope script_scope.

Definition exec {A} (c : M A) (st : State) : State := snd (c st).

Definition when (b : bool) (c : M unit) : M unit :=
  if b then c else ret tt.

(** [for (const x of xs) body] and [xs.forEach(body)]. *)
Fixpoint forEach {A} (xs : list A) (body : A -> M unit) : M unit :=
  match xs with
  | [] => ret tt
  | x :: xs' => body x ;; forEach xs' body
  end.

(** [xs.forEach((x, index) => body)], the index starting at [i]. *)
Fixpoint forEachIndexed {A} (i : nat) (xs : list A) (body : nat -> A -> M unit)
  : M unit :=
  match xs with
  | [] => ret tt
  | x :: xs' => body i x ;; forEachIndexed (S i) xs' body
  end.

Definition console_log (line : string) : M unit :=
  fun st => (tt, mkState (results st) (console st ++ [Log line])%list
                         (executed st) (reported st)).

Definition console_clear : M unit :=
  fun st => (tt, mkState (results st) (console st ++ [Clear])%list
                         (executed st) (reported st)).

Definition updResults (f : Results -> Results) : M unit :=
  fun st => (tt, mkState (f (results st)) (console st)
                         (executed st) (reported st)).

Definition push_passed (x : string) : M unit :=
  updResults (fun r => mkResults (passed r ++ [x])%list (failed r) (warnings r)
                                 (critical r) (important r) (optional r)).
Definition push_failed (x : string) : M unit :=
  updResults (fun r => mkResults (passed r) (failed r ++ [x])%list (warnings r)
                                 (critical r) (important r) (optional r)).
Definition push_warnings (x : string) : M unit :=
  updResults (fun r => mkResults (passed r) (failed r) (warnings r ++ [x])%list
                                 (critical r) (important r) (optional r)).
Definition push_critical (x : string) : M unit :=
  updResults (fun r => mkResults (passed r) (failed r) (warnings r)
                                 (critical r ++ [x])%list (important r) (optional r)).
Definition push_important (x : string) : M unit :=
  updResults (fun r => mkResults (passed r) (failed r) (warnings r)
                                 (critical r) (important r ++ [x])%list (optional r)).
Definition push_optional (x : string) : M unit :=
  updResults (fun r => mkResults (passed r) (failed r) (warnings r)
                                 (critical r) (important r) (optional r ++ [x])%list).

Definition note_outcome (o : Outcome) : M unit :=
  fun st => (tt, mkState (results st) (console st) (executed st)
                         (reported st ++ [o])%list).

(* ================================================================== *)
(** * The script *)
(* ================================================================== *)

(** ANSI color codes, [colors]. *)
Inductive Color := reset | bright | green | red | yellow | blue | cyan.

Definition colors (c : Color) : string :=
  match c with
  | reset => esc ++ "[0m"
  | bright => esc ++ "[1m"
  | green => esc ++ "[32m"
  | red => esc ++ "[31m"
  | yellow => esc ++ "[33m"
  | blue => esc ++ "[34m"
  | cyan => esc ++ "[36m"
  end.

(** Status symbols, [symbols]. *)
Definition symbols (s : Status) : string :=
  match s with
  | success => "✓"
  | failure => "✗"
  | warning => "⚠"
  end.

Definition HELP_TEXT : string := "
VS Code Mobile Development Setup Verification Script
====================================================

USAGE:
  npx @digitalfutures/vscode-setup-check          Run verification checks
  npx @digitalfutures/vscode-setup-check --help   Show this help message

WHAT THIS SCRIPT DOES:
  Automatically verifies your development environment setup including:
  - Software installation (Node.js, VS Code, Git)
  - VS Code extensions (GitLens, p5js, Live Server, etc.)
  - Git configuration (username, email)
  - Repository status and structure (if run from a repo)

OUTPUT:
  ✓ Green checkmarks = Passed
  ✗ Red X marks = Failed (with fix instructions)
  ⚠ Yellow warnings = Attention needed

CRITICALITY LEVELS:
  🔴 CRITICAL   - Must be fixed for development to work
  🟡 IMPORTANT  - Recommended for full functionality
  🟢 OPTIONAL   - Nice to have, but not required

TROUBLESHOOTING:
  Each failed check includes:
  - Why it's important (criticality level)
  - How to fix it (automated script or manual steps)
  - Links to relevant documentation

For detailed setup instructions, see: 
https://github.com/DigitalFuturesOCADU/atelier1-fall2025/tree/main/guide
".

Definition GUIDE : string :=
  "https://github.com/DigitalFuturesOCADU/atelier1-fall2025/tree/main/guide".

(** [executeCommand]: run the command; its trimmed output, or null when
    [execSync] throws. *)
Definition executeCommand (env : Env) (command : string) : M (option string) :=
  fun st =>
    (option_map trim (execSync env (executed st) command),
     mkState (results st) (console st) (executed st ++ [command])%list (reported st)).

(** The command [os.platform() === 'win32' ? 'where code.cmd' : 'which code']. *)
Definition locateCode (env : Env) : string :=
  if String.eqb (platform env) "win32" then "where code.cmd" else "which code".

(** [findVSCodePath]. *)
Definition possiblePaths (env : Env) : list string :=
  if String.eqb (platform env) "darwin" then
    [ "/Applications/Visual Studio Code.app/Contents/Resources/app/bin/code";
      path_join env [homedir env;
        "Applications/Visual Studio Code.app/Contents/Resources/app/bin/code"] ]
  else if String.eqb (platform env) "win32" then
    [ path_join env [orElse (env_LOCALAPPDATA env) EmptyString;
                     "Programs"; "Microsoft VS Code"; "bin"; "code.cmd"];
      path_join env [orElse (env_PROGRAMFILES env) "C:\Program Files";
                     "Microsoft VS Code"; "bin"; "code.cmd"];
      path_join env [orElse (env_PROGRAMFILES_X86 env) "C:\Program Files (x86)";
                     "Microsoft VS Code"; "bin"; "code.cmd"] ]
  else
    [ "/usr/bin/code";
      "/usr/local/bin/code";
      path_join env [homedir env; ".vscode-server"; "bin"; "code"] ].

Definition findVSCodePath (env : Env) : M (option string) :=
  inPath <- executeCommand env (locateCode env) ;;
  if truthy inPath then
    ret (Some (if String.eqb (platform env) "win32" then "code.cmd" else "code"))
  else
    ret (List.find (existsSync env) (possiblePaths env)).

(** [print]. *)
Definition print (message : string) (color : Color) : M unit :=
  console_log (colors color ++ message ++ colors reset).

(** [printHeader]. *)
Definition printHeader (title : string) : M unit :=
  console_log (nl ++ repeat "=" 60) ;;
  print title bright ;;
  console_log (repeat "=" 60 ++ nl).

(** The tables [criticalityColors] and [critSymbols] of [printResult]. *)
Definition criticalityColors (c : Criticality) : Color :=
  match c with CRITICAL => red | IMPORTANT => yellow | OPTIONAL => green end.

Definition critSymbols (c : Criticality) : string :=
  match c with CRITICAL => "🔴" | IMPORTANT => "🟡" | OPTIONAL => "🟢" end.

(** The string a criticality is in the source. *)
Definition criticalityName (c : Criticality) : string :=
  match c with
  | CRITICAL => "CRITICAL" | IMPORTANT => "IMPORTANT" | OPTIONAL => "OPTIONAL"
  end.

Definition isFailure (s : Status) : bool :=
  match s with failure => true | _ => false end.
Definition isWarning (s : Status) : bool :=
  match s with warning => true | _ => false end.
Definition isSuccess (s : Status) : bool :=
  match s with success => true | _ => false end.

(** [if (options.fix)]: an array is truthy, a string when it is not empty. *)
Definition hasFix (options : Options) : bool :=
  match fix_ options with
  | Some (FixSteps _) => true
  | Some (FixText t) => nonEmpty t
  | None => false
  end.

(** [printResult]: print a check result with criticality and fix
    instructions. *)
Definition printResult (status : Status) (message details : string)
    (options : Options) : M unit :=
  note_outcome (mkOutcome status message details options) ;;
  let symbol := symbols status in
  let color := match status with
               | success => green | failure => red | warning => yellow
               end in
  print (symbol ++ " " ++ message) color ;;
  when (nonEmpty details) (console_log ("  " ++ details)) ;;
  (* Show criticality level for failures *)
  match criticality options with
  | Some c =>
      when (isFailure status)
        (print ("  " ++ critSymbols c ++ " Criticality: " ++ criticalityName c)
               (criticalityColors c) ;;
         match c with
         | CRITICAL => push_critical message
         | IMPORTANT => push_important message
         | OPTIONAL => push_optional message
         end)
  | None => ret tt
  end ;;
  (* Show fix instructions *)
  when (isFailure status && hasFix options)
    (print "  💡 How to fix:" cyan ;;
     match fix_ options with
     | Some (FixSteps steps) =>
         forEachIndexed 0 steps (fun index step =>
           console_log ("     " ++ showNat (index + 1) ++ ". " ++ step))
     | Some (FixText t) => console_log ("     " ++ t)
     | None => ret tt
     end) ;;
  (* Show links *)
  when (truthy (link options))
    (print ("  📖 Guide: " ++ orElse (link options) EmptyString) blue) ;;
  when (isFailure status || (isWarning status && hasFix options))
    (console_log EmptyString).

(** The tail of [checkVSCode], reached when no usable editor was found. *)
Definition vscodeNotFound (env : Env) : M (option string) :=
  let isMac := String.eqb (platform env) "darwin" in
  let isWindows := String.eqb (platform env) "win32" in
  let fixSteps :=
    [ "Download and install VS Code from: https://code.visualstudio.com/download";
      (if isMac then "For Mac: Download the .dmg file and drag to Applications"
       else if isWindows then
         "For Windows: Download the installer and check " ++ dq ++ "Add to PATH" ++ dq
       else "Follow the installation instructions for your OS");
      "Restart your terminal after installation" ] in
  printResult failure "VS Code is NOT installed" "Required for development"
    (mkOptions (Some CRITICAL) (Some (FixSteps fixSteps)) (Some GUIDE)) ;;
  push_failed "VS Code not found" ;;
  ret None.

(** The remediation steps of the "NOT in PATH" warning. *)
Definition notInPathFix (env : Env) : list string :=
  let isMac := String.eqb (platform env) "darwin" in
  let isWindows := String.eqb (platform env) "win32" in
  if isMac then
    [ "To add VS Code to PATH:";
      "  1. Open VS Code";
      "  2. Press Cmd+Shift+P to open Command Palette";
      "  3. Type " ++ dq ++ "shell command" ++ dq;
      "  4. Select " ++ dq ++ "Shell Command: Install 'code' command in PATH" ++ dq;
      "  5. Restart terminal";
      EmptyString;
      "Note: This is OPTIONAL. Extensions check will still work." ]
  else if isWindows then
    [ "To add VS Code to PATH:";
      "  1. Reinstall VS Code from: https://code.visualstudio.com/download";
      "  2. During installation, check " ++ dq ++ "Add to PATH" ++ dq ++ " option";
      "  3. Restart your computer";
      EmptyString;
      "Note: This is OPTIONAL. Extensions check will still work." ]
  else
    [ "Add VS Code to your PATH manually or reinstall from:";
      "https://code.visualstudio.com/download" ].

(** [checkVSCode]: is VS Code installed, and where. *)
Definition checkVSCode (env : Env) : M (option string) :=
  printHeader "Checking VS Code Installation" ;;
  vscodePath <- findVSCodePath env ;;
  if truthy vscodePath then
    version <- executeCommand env
      (dq ++ orElse vscodePath EmptyString ++ dq ++ " --version") ;;
    if truthy version then
      let versionNumber := first (split_nl (orElse version EmptyString)) in
      (* Check if it's in PATH or using direct path *)
      inPath <- executeCommand env (locateCode env) ;;
      (if truthy inPath then
         printResult success "VS Code is installed and in PATH"
           ("Version: " ++ versionNumber) noOptions ;;
         push_passed "VS Code in PATH"
       else
         printResult success "VS Code is installed"
           ("Version: " ++ versionNumber) noOptions ;;
         push_passed "VS Code installed" ;;
         printResult warning "VS Code is NOT in PATH"
           "Recommended for better terminal integration"
           (mkOptions (Some OPTIONAL) (Some (FixSteps (notInPathFix env))) None) ;;
         push_warnings "VS Code not in PATH") ;;
      ret vscodePath
    else vscodeNotFound env
  else vscodeNotFound env.

(** One entry of [requiredExtensions]. *)
Record ExtInfo := mkExtInfo {
  name : string;
  ext_criticality : Criticality;
  reason : string
}.

(** [Object.entries(requiredExtensions)], in insertion order. *)
Definition requiredExtensions : list (string * ExtInfo) :=
  [ ("eamodio.gitlens",
     mkExtInfo "GitLens" IMPORTANT "Enhances Git workflow and visualization");
    ("acidic9.p5js-snippets",
     mkExtInfo "p5js Snippets" IMPORTANT
       "Provides code snippets for P5.js development");
    ("ultamatum.p5-project-creator",
     mkExtInfo "P5 Project Creator" CRITICAL
       "Required to create P5.js projects in VS Code");
    ("ritwickdey.liveserver",
     mkExtInfo "Live Server" CRITICAL
       "Required to run local development server");
    ("github.vscode-github-actions",
     mkExtInfo "GitHub Actions" OPTIONAL
       "Helpful for managing GitHub deployments") ].

(** The body of the loop of [checkExtensions] for one entry. *)
Definition checkExtension (env : Env) (vscodePath : string)
    (installedList : list string) (entry : string * ExtInfo) : M unit :=
  let (extId, extInfo) := entry in
  if arrayIncludes installedList (toLowerCase env extId) then
    printResult success (name extInfo ++ " is installed") EmptyString noOptions ;;
    push_passed ("Extension: " ++ name extInfo)
  else
    (* prefer 'code' if in PATH, otherwise use full path *)
    inPath <- executeCommand env (locateCode env) ;;
    let installCommand :=
      if truthy inPath then "code --install-extension " ++ extId
      else dq ++ vscodePath ++ dq ++ " --install-extension " ++ extId in
    printResult failure (name extInfo ++ " is NOT installed") (reason extInfo)
      (mkOptions (Some (ext_criticality extInfo))
         (Some (FixSteps
            [ "Quick install: Run this command in terminal:";
              "  " ++ installCommand;
              EmptyString;
              "Or install manually:";
              "  1. Open VS Code";
              "  2. Press Cmd+Shift+X (Mac) or Ctrl+Shift+X (Windows)";
              "  3. Search for " ++ dq ++ name extInfo ++ dq;
              "  4. Click Install" ]))
         (Some GUIDE)) ;;
    push_failed ("Extension: " ++ name extInfo).

(** [checkExtensions]. *)
Definition checkExtensions (env : Env) (vscodePath : option string) : M unit :=
  printHeader "Checking VS Code Extensions" ;;
  (* If VS Code path wasn't found, skip extension check *)
  if negb (truthy vscodePath) then
    print "⊘ Skipping extensions check - VS Code not found" yellow ;;
    console_log "  Install VS Code first, then run this script again"
  else
    let vscodePath := orElse vscodePath EmptyString in
    installedExtensions <- executeCommand env
      (dq ++ vscodePath ++ dq ++ " --list-extensions") ;;
    if negb (truthy installedExtensions) then
      print "⊘ Could not retrieve extensions list" yellow ;;
      console_log "  This might be a temporary issue. Try running the script again." ;;
      console_log "  Or manually verify extensions in VS Code (Cmd/Ctrl+Shift+X)"
    else
      let installedList :=
        split_nl (toLowerCase env (orElse installedExtensions EmptyString)) in
      forEach requiredExtensions (checkExtension env vscodePath installedList).

(** The identity part of [checkGit], after the tool itself was found. *)
Definition checkGitConfig (env : Env) : M unit :=
  userName <- executeCommand env "git config --global user.name" ;;
  userEmail <- executeCommand env "git config --global user.email" ;;
  (if truthy userName then
     printResult success "Git user.name is configured"
       ("Name: " ++ orElse userName EmptyString) noOptions ;;
     push_passed "Git user.name set"
   else
     printResult failure "Git user.name is NOT configured" "Required for Git commits"
       (mkOptions (Some CRITICAL)
          (Some (FixSteps
             [ "Run this command in terminal:";
               "  git config --global user.name " ++ dq ++ "Your Full Name" ++ dq;
               EmptyString;
               "Example:";
               "  git config --global user.name " ++ dq ++ "Jane Smith" ++ dq ]))
          None) ;;
     push_failed "Git user.name not set") ;;
  if truthy userEmail then
    let userEmail := orElse userEmail EmptyString in
    printResult success "Git user.email is configured"
      ("Email: " ++ userEmail) noOptions ;;
    push_passed "Git user.email set" ;;
    (* Check if it's an OCADU email *)
    if includes userEmail "@ocadu.ca" || includes userEmail "@ocad.ca" then
      printResult success "Using OCADU email address" EmptyString noOptions ;;
      push_passed "OCADU email configured"
    else
      printResult warning "Not using OCADU email address"
        "Recommended for GitHub Education benefits"
        (mkOptions (Some OPTIONAL)
           (Some (FixSteps
              [ "To use your OCADU email:";
                "  git config --global user.email " ++ dq ++ "your.email@ocadu.ca" ++ dq;
                EmptyString;
                "Current email: " ++ userEmail;
                EmptyString;
                "Note: This is OPTIONAL. Your current setup works fine.";
                "OCADU email only needed for GitHub Education benefits." ]))
           None) ;;
      push_warnings "Non-OCADU email"
  else
    printResult failure "Git user.email is NOT configured" "Required for Git commits"
      (mkOptions (Some CRITICAL)
         (Some (FixSteps
            [ "Run this command in terminal:";
              "  git config --global user.email " ++ dq ++ "your.email@ocadu.ca" ++ dq;
              EmptyString;
              "Example:";
              "  git config --global user.email " ++ dq ++ "jane.smith@ocadu.ca" ++ dq ]))
         None) ;;
    push_failed "Git user.email not set".

(** [checkGit]: Git installation and configuration. *)
Definition checkGit (env : Env) : M unit :=
  printHeader "Checking Git Installation & Configuration" ;;
  gitVersion <- executeCommand env "git --version" ;;
  if truthy gitVersion then
    printResult success "Git is installed" (orElse gitVersion EmptyString) noOptions ;;
    push_passed "Git installed" ;;
    (* Check Git configuration *)
    checkGitConfig env
  else
    let isMac := String.eqb (platform env) "darwin" in
    let fixSteps :=
      if isMac then
        [ "Install Xcode Command Line Tools:";
          "  Run: xcode-select --install";
          "Follow the installation prompts";
          "Or download Git from: https://git-scm.com/downloads" ]
      else
        [ "Download Git from: https://git-scm.com/downloads";
          "Run the installer";
          "Use default settings";
          "Restart your terminal after installation" ] in
    printResult failure "Git is NOT installed" "Required for version control"
      (mkOptions (Some CRITICAL) (Some (FixSteps fixSteps)) (Some GUIDE)) ;;
    push_failed "Git not found".

(** [checkNode]: Node.js installation. *)
Definition checkNode (env : Env) : M unit :=
  printHeader "Checking Node.js Installation" ;;
  nodeVersion <- executeCommand env "node --version" ;;
  npmVersion <- executeCommand env "npm --version" ;;
  (if truthy nodeVersion then
     printResult success "Node.js is installed" (orElse nodeVersion EmptyString)
       noOptions ;;
     push_passed "Node.js installed"
   else
     printResult failure "Node.js is NOT installed"
       "Required to run this verification script"
       (mkOptions (Some IMPORTANT)
          (Some (FixSteps
             [ "Download Node.js LTS version from: https://nodejs.org/";
               "Run the installer (includes npm)";
               "Use default installation settings";
               "Restart terminal after installation";
               EmptyString;
               "Note: You're seeing this message because Node.js IS installed";
               "(otherwise this script wouldn't run!). This check failed due to";
               "a technical issue, but you can safely ignore it." ]))
          (Some GUIDE)) ;;
     push_failed "Node.js not found") ;;
  if truthy npmVersion then
    printResult success "npm is installed"
      ("Version: " ++ orElse npmVersion EmptyString) noOptions ;;
    push_passed "npm installed"
  else
    printResult warning "npm is NOT installed" "Useful for managing packages"
      (mkOptions (Some OPTIONAL)
         (Some (FixSteps
            [ "npm usually comes with Node.js";
              "Try reinstalling Node.js from: https://nodejs.org/";
              EmptyString;
              "Note: Not required for basic P5.js development" ]))
         None) ;;
    push_warnings "npm not found".

(** [checkLocalRepo]: the local Git repository. *)
Definition checkLocalRepo (env : Env) : M unit :=
  printHeader "Checking Local Repository" ;;
  let currentDir := cwd env in
  let gitDir := path_join env [currentDir; ".git"] in
  if existsSync env gitDir then
    printResult success "Current directory is a Git repository" EmptyString
      noOptions ;;
    push_passed "Git repository found" ;;
    (* Get remote URL *)
    remoteUrl <- executeCommand env "git remote get-url origin" ;;
    (if truthy remoteUrl then
       let remoteUrl := orElse remoteUrl EmptyString in
       printResult success "Remote repository configured" remoteUrl noOptions ;;
       push_passed "Remote configured" ;;
       (* Check if it's a GitHub repository *)
       when (includes remoteUrl "github.com")
         (printResult success "Repository is hosted on GitHub" EmptyString
            noOptions ;;
          push_passed "GitHub repository")
     else
       printResult warning "No remote repository configured"
         "Needed for GitHub Pages deployment"
         (mkOptions (Some IMPORTANT)
            (Some (FixSteps
               [ "Create a GitHub repository first (if you haven't):";
                 "  1. Go to https://github.com/new";
                 "  2. Create a new repository";
                 EmptyString;
                 "Then connect it to this local repository:";
                 "  git remote add origin https://github.com/USERNAME/REPO-NAME.git";
                 "  git branch -M main";
                 "  git push -u origin main";
                 EmptyString;
                 "Replace USERNAME and REPO-NAME with your details" ]))
            (Some GUIDE)) ;;
       push_warnings "No remote configured") ;;
    (* Check current branch *)
    branch <- executeCommand env "git branch --show-current" ;;
    when (truthy branch)
      (printResult success ("Current branch: " ++ orElse branch EmptyString)
         EmptyString noOptions ;;
       push_passed ("Branch: " ++ orElse branch EmptyString)) ;;
    (* Check for uncommitted changes *)
    status <- executeCommand env "git status --porcelain" ;;
    if truthy status then
      let fileCount :=
        List.length (split_nl (trim (orElse status EmptyString))) in
      printResult warning
        ("You have " ++ showNat fileCount ++ " uncommitted change(s)")
        "Not critical, but good practice to commit regularly"
        (mkOptions (Some OPTIONAL)
           (Some (FixSteps
              [ "To see what files changed:";
                "  git status";
                EmptyString;
                "To commit your changes:";
                "  git add .";
                "  git commit -m " ++ dq ++ "Describe your changes" ++ dq;
                "  git push";
                EmptyString;
                "Note: This is OPTIONAL. Uncommitted changes don't break anything." ]))
           None) ;;
      push_warnings "Uncommitted changes"
    else
      printResult success "Working directory is clean" EmptyString noOptions ;;
      push_passed "Clean working directory"
  else
    printResult warning "Current directory is NOT a Git repository"
      "Run from your project folder for repository checks"
      (mkOptions (Some OPTIONAL)
         (Some (FixSteps
            [ "This is OPTIONAL - you can run this script from anywhere.";
              "For repository-specific checks, navigate to your project first:";
              "  cd path/to/your/repository";
              "  npx @digitalfutures/vscode-setup-check";
              EmptyString;
              "Or if you don't have a repository yet, see the setup guide.";
              EmptyString;
              "Current directory: " ++ currentDir ]))
         (Some GUIDE)) ;;
    push_warnings "Not in Git repository".

(** [printManualChecklist]. *)
Definition printManualChecklist : M unit :=
  printHeader "Manual Verification Checklist" ;;
  print (nl ++ "The following items require manual verification:") cyan ;;
  console_log (nl ++ "☐ GitHub account created with @ocadu.ca email") ;;
  console_log "☐ Signed into VS Code with GitHub account" ;;
  console_log "☐ GitHub Desktop installed and signed in" ;;
  console_log "☐ GitHub Mobile app installed on phone" ;;
  console_log "☐ GitLens extension authorized in VS Code" ;;
  console_log "☐ GitHub Actions extension authorized in VS Code" ;;
  console_log "☐ GitHub Copilot Pro subscription activated" ;;
  console_log "☐ Two-factor authentication enabled on GitHub" ;;
  console_log "☐ GitHub repository created with Pages enabled" ;;
  console_log "☐ GitHub Actions workflow configured" ;;
  console_log "☐ Repository cloned locally" ;;
  console_log "☐ Can create P5.js project using Command Palette" ;;
  console_log "☐ Live Server can launch local development server" ;;
  console_log "☐ VS Code Tunnel can be created and accessed" ;;
  console_log "☐ Chrome DevTools accessible (F12 or Cmd+Option+I)" ;;
  print (nl ++ "📚 Refer to the setup guides at:") cyan ;;
  console_log ("   " ++ GUIDE).

Definition getResults : M Results := fun st => (results st, st).

(** The completion rate of [printSummary]:
    [total > 0 ? Math.round((results.passed.length / total) * 100) : 0]. *)
Definition passRate (r : Results) : Z :=
  let total := (List.length (passed r) + List.length (failed r)
                + List.length (warnings r))%nat in
  if (0 <? total)%nat then
    Math_round (fmul (fdiv (number_of_nat (List.length (passed r)))
                           (number_of_nat total))
                     (number_of_nat 100))
  else 0%Z.

(** The context-specific feedback of [printSummary], an if-else chain
    over the lengths of the result lists. *)
Definition summaryFeedback (r : Results) : M unit :=
  if (List.length (failed r) =? 0)%nat && (List.length (warnings r) =? 0)%nat then
    print "🎉 Perfect! All automated checks passed!" green ;;
    print "Please complete the manual verification checklist above." cyan
  else if (List.length (critical r) =? 0)%nat
          && (List.length (important r) =? 0)%nat then
    print "✅ Your system is working correctly!" green ;;
    print "The failed/warning items are OPTIONAL and don't affect functionality." cyan ;;
    print "You can safely proceed with development." cyan
  else if (0 <? List.length (critical r))%nat then
    print "🔴 CRITICAL issues found - these must be fixed!" red ;;
    print "Review the fix instructions above for each critical item." yellow
  else
    print "⚠️  Some recommended items need attention." yellow ;;
    print "Your system may work, but fixing these will improve functionality." cyan.

(** [printSummary]: the final summary. *)
Definition printSummary : M unit :=
  printHeader "Setup Verification Summary" ;;
  r <- getResults ;;
  print (nl ++ "✓ Passed: " ++ showNat (List.length (passed r))) green ;;
  print ("✗ Failed: " ++ showNat (List.length (failed r))) red ;;
  print ("⚠ Warnings: " ++ showNat (List.length (warnings r))) yellow ;;
  console_log (nl ++ "Completion Rate: " ++ showZ (passRate r) ++ "%") ;;
  (* Show criticality breakdown *)
  when ((0 <? List.length (critical r))%nat || (0 <? List.length (important r))%nat
        || (0 <? List.length (optional r))%nat)
    (console_log (nl ++ "Failed Items by Criticality:") ;;
     when (0 <? List.length (critical r))%nat
       (print ("  🔴 Critical: " ++ showNat (List.length (critical r))
               ++ " - Must fix for development to work") red) ;;
     when (0 <? List.length (important r))%nat
       (print ("  🟡 Important: " ++ showNat (List.length (important r))
               ++ " - Recommended for full functionality") yellow) ;;
     when (0 <? List.length (optional r))%nat
       (print ("  🟢 Optional: " ++ showNat (List.length (optional r))
               ++ " - Nice to have, not required") green)) ;;
  console_log EmptyString ;;
  (* Provide context-specific feedback *)
  summaryFeedback r ;;
  console_log (nl ++ "📚 For detailed guides, visit:") ;;
  console_log ("   " ++ GUIDE) ;;
  console_log "❓ For help, run: npx @digitalfutures/vscode-setup-check --help" ;;
  console_log nl.

(** [main]. *)
Definition main (env : Env) : M unit :=
  console_clear ;;
  print "╔════════════════════════════════════════════════════════════╗" cyan ;;
  print "║   VS Code Mobile Development Setup Verification Script    ║" cyan ;;
  print "╚════════════════════════════════════════════════════════════╝" cyan ;;
  checkNode env ;;
  vscodePath <- checkVSCode env ;;
  checkExtensions env vscodePath ;;
  checkGit env ;;
  checkLocalRepo env ;;
  printManualChecklist ;;
  printSummary.

(** How a run of the file ends: [process.exit(code)], or the end of the
    script. *)
Inductive Termination := Exited (code : Z) | Finished.

(** The file from top to bottom: the help-flag check, then [main()]. *)
Definition script (env : Env) : Termination * State :=
  if arrayIncludes (argv env) "--help" || arrayIncludes (argv env) "-h" then
    (Exited 0, exec (console_log HELP_TEXT) initialState)
  else
    (Finished, exec (main env) initialState).

(* ================================================================== *)
(** * Vocabulary of the specification *)
(* ================================================================== *)

(** The four summary messages of the specification. *)
Inductive SummaryMessage := AllClear | OnlyOptional | MustFix | NeedsAttention.

(** The stated precedence: (a) zero failed and zero warnings; else (b) zero
    critical and zero important; else (c) at least one critical; else (d). *)
Definition selectedMessage (criticalCount importantCount failedCount warningCount : nat)
  : SummaryMessage :=
  if (failedCount =? 0)%nat && (warningCount =? 0)%nat then AllClear
  else if (criticalCount =? 0)%nat && (importantCount =? 0)%nat then OnlyOptional
  else if (1 <=? criticalCount)%nat then MustFix
  else NeedsAttention.

(** The lines by which each message is recognised on the console. *)
Definition messageLines (m : SummaryMessage) : list ConsoleEvent :=
  match m with
  | AllClear =>
      [ Log (colors green ++ "🎉 Perfect! All automated checks passed!" ++ colors reset);
        Log (colors cyan ++ "Please complete the manual verification checklist above."
             ++ colors reset) ]
  | OnlyOptional =>
      [ Log (colors green ++ "✅ Your system is working correctly!" ++ colors reset);
        Log (colors cyan
             ++ "The failed/warning items are OPTIONAL and don't affect functionality."
             ++ colors reset);
        Log (colors cyan ++ "You can safely proceed with development." ++ colors reset) ]
  | MustFix =>
      [ Log (colors red ++ "🔴 CRITICAL issues found - these must be fixed!"
             ++ colors reset);
        Log (colors yellow ++ "Review the fix instructions above for each critical item."
             ++ colors reset) ]
  | NeedsAttention =>
      [ Log (colors yellow ++ "⚠️  Some recommended items need attention."
             ++ colors reset);
        Log (colors cyan
             ++ "Your system may work, but fixing these will improve functionality."
             ++ colors reset) ]
  end.

(** round(100 x passed / total), a tie going up; 0 when the total is 0. *)
Definition roundedPercent (passedCount failedCount warnedCount : nat) : Z :=
  let total := Z.of_nat (passedCount + failedCount + warnedCount) in
  if (total =? 0)%Z then 0%Z
  else ((2 * (100 * Z.of_nat passedCount) + total) / (2 * total))%Z.

Definition totalCount (r : Results) : nat :=
  (List.length (passed r) + List.length (failed r) + List.length (warnings r))%nat.

(** [s] ends with [suffix]. *)
Definition endsWith (s suffix : string) : Prop :=
  exists front, s = front ++ suffix.

(** [sub] occurs in [s]. *)
Definition occursIn (sub s : string) : Prop :=
  exists front back, s = front ++ sub ++ back.

(** Two identifiers that differ in letter case only, for the engine of the
    machine. *)
Definition sameUpToCase (env : Env) (a b : string) : Prop :=
  toLowerCase env a = toLowerCase env b.

(** An engine lowers a text line by line: a line feed has no case, no
    letter lowers to one, and no casing rule looks across one. *)
Definition LowersLineByLine (env : Env) : Prop :=
  forall s, split_nl (toLowerCase env s) = map (toLowerCase env) (split_nl s).



(** The color and the line by which [printResult] announces a result. *)
Definition statusColor (status : Status) : Color :=
  match status with success => green | failure => red | warning => yellow end.

Definition headline (status : Status) (message : string) : ConsoleEvent :=
  Log (colors (statusColor status) ++ (symbols status ++ " " ++ message)
       ++ colors reset).

Definition isHeadline (e : ConsoleEvent) : Prop :=
  exists status message, e = headline status message.


(** The three console lines of [printHeader]. *)
Definition headerLines (title : string) : list ConsoleEvent :=
  [ Log (nl ++ repeat "=" 60);
    Log (colors bright ++ title ++ colors reset);
    Log (repeat "=" 60 ++ nl) ].

Definition countStatus (s : Status) (os : list Outcome) : nat :=
  List.length (filter (fun o => match o_status o, s with
                                | success, success | failure, failure
                                | warning, warning => true
                                | _, _ => false
                                end) os).

(** ** Auxiliary notions of the proofs *)

(** The rate as a function of the two counts it depends on. *)
Definition rateOf (p total : nat) : Z :=
  if (0 <? total)%nat then
    Math_round (fmul (fdiv (number_of_nat p) (number_of_nat total))
                     (number_of_nat 100))
  else 0%Z.

Definition roundedOf (p total : nat) : Z :=
  if (Z.of_nat total =? 0)%Z then 0%Z
  else ((2 * (100 * Z.of_nat p) + Z.of_nat total) / (2 * Z.of_nat total))%Z.

Definition rateTable (bound : nat) : bool :=
  forallb (fun t => forallb (fun p => Z.eqb (rateOf p t) (roundedOf p t))
                            (seq 0 (S t)))
          (seq 0 bound).

(** What does hold between the history of outcomes and the six lists:
    every success is one entry of passed-items, every failure one entry of
    failed-items and one entry of a severity bucket, every warning one
    entry of warning-items. *)
Definition Accounted (st : State) : Prop :=
  List.length (passed (results st)) = countStatus success (reported st) /\
  List.length (failed (results st)) = countStatus failure (reported st) /\
  List.length (warnings (results st)) = countStatus warning (reported st) /\
  (List.length (critical (results st)) + List.length (important (results st))
   + List.length (optional (results st)) = countStatus failure (reported st))%nat.

(** A computation that adds at most [k] entries to the three lists the
    completion rate is computed from, and keeps [Accounted]. *)
Definition Adds (k : nat) (c : State -> State) : Prop :=
  forall st,
    (totalCount (results (c st)) <= totalCount (results st) + k)%nat /\
    (Accounted st -> Accounted (c st)).

(** The four closing lines of [printSummary]. *)
Definition summaryFooter : list ConsoleEvent :=
  [ Log (nl ++ "📚 For detailed guides, visit:");
    Log ("   " ++ GUIDE);
    Log "❓ For help, run: npx @digitalfutures/vscode-setup-check --help";
    Log nl ].

(** The line that carries the completion rate. *)
Definition rateLine (rate : Z) : ConsoleEvent :=
  Log (nl ++ "Completion Rate: " ++ showZ rate ++ "%").


(** The test of the loop: [installedList.includes(extId.toLowerCase())]. *)
Definition listed (env : Env) (installedList : list string)
    (entry : string * ExtInfo) : bool :=
  arrayIncludes installedList (toLowerCase env (fst entry)).

(** The entry an extension leaves in passed-items or in failed-items. *)
Definition extensionLabel (entry : string * ExtInfo) : string :=
  "Extension: " ++ name (snd entry).

Definition installedLine (extInfo : ExtInfo) : ConsoleEvent :=
  headline success (name extInfo ++ " is installed").

Definition missingLine (extInfo : ExtInfo) : ConsoleEvent :=
  headline failure (name extInfo ++ " is NOT installed").

(** The line by which one round of the loop announces its entry. *)
Definition announcement (env : Env) (installedList : list string)
    (entry : string * ExtInfo) : ConsoleEvent :=
  if listed env installedList entry then installedLine (snd entry)
  else missingLine (snd entry).

(** The console lines of one round of the loop: the announcement for its
    entry, then lines that announce nothing. *)
Definition roundLines (env : Env) (installedList : list string)
    (entry : string * ExtInfo) (lines : list ConsoleEvent) : Prop :=
  exists rest,
    lines = announcement env installedList entry :: rest
    /\ Forall (fun e => ~ isHeadline e) rest.

(** ** Sample machines *)

Definition answers (table : list (string * string)) (cmd : string)
  : option string :=
  option_map snd (List.find (fun kv => String.eqb (fst kv) cmd) table).

(** A Linux machine whose commands answer by a fixed table (a command
    missing from the table fails) and whose file system holds [files].  Its
    engine lowers the ASCII letters, which is all [toLowerCase] does on the
    ASCII answers of these machines. *)
Definition linuxEnv (table : list (string * string)) (files : list string)
    (args : list string) : Env :=
  mkEnv (fun _ => answers table) (fun p => arrayIncludes files p)
        "linux" "/home/student" "/home/student/sketch" args None None None
        (String.concat "/") asciiLowerCase.

Definition nodeArgs : list string := ["/usr/bin/node"; "/home/student/index.js"].

(** Everything installed, inside a clean repository with a GitHub remote. *)
Definition fullTable : list (string * string) :=
  [ ("node --version", "v20.11.0" ++ nl);
    ("npm --version", "10.2.4" ++ nl);
    ("which code", "/usr/bin/code" ++ nl);
    (dq ++ "code" ++ dq ++ " --version", "1.94.2" ++ nl ++ "384ff73" ++ nl ++ "x64" ++ nl);
    (dq ++ "code" ++ dq ++ " --list-extensions",
     "acidic9.p5js-snippets" ++ nl ++ "eamodio.gitlens" ++ nl
     ++ "GitHub.vscode-github-actions" ++ nl ++ "ritwickdey.LiveServer" ++ nl
     ++ "ultamatum.p5-project-creator" ++ nl);
    ("git --version", "git version 2.43.0" ++ nl);
    ("git config --global user.name", "Jane Smith" ++ nl);
    ("git config --global user.email", "student@ocadu.ca" ++ nl);
    ("git remote get-url origin", "https://github.com/student/sketch.git" ++ nl);
    ("git branch --show-current", "main" ++ nl);
    ("git status --porcelain", EmptyString) ].

Definition fullEnv : Env :=
  linuxEnv fullTable ["/home/student/sketch/.git"] nodeArgs.

(** The same machine with one answer replaced. *)
Definition withAnswer (cmd out : string) : Env :=
  linuxEnv ((cmd, out) :: fullTable) ["/home/student/sketch/.git"] nodeArgs.

(** The same machine with one command failing. *)
Definition without (cmd : string) : Env :=
  linuxEnv (filter (fun kv => negb (String.eqb (fst kv) cmd)) fullTable)
           ["/home/student/sketch/.git"] nodeArgs.

(** A bare machine: no command works, no file exists. *)
Definition bareEnv : Env := linuxEnv [] [] nodeArgs.

(** The full machine, started with the help flag. *)
Definition helpEnv : Env :=
  linuxEnv fullTable ["/home/student/sketch/.git"] (nodeArgs ++ ["--help"])%list.

(* ================================================================== *)
(** * Properties of the primitives *)
(* ================================================================== *)

Lemma exec_bind {A B} (c : M A) (k : A -> M B) st :
  exec (bind c k) st = exec (k (fst (c st))) (snd (c st)).
Proof. unfold exec, bind. destruct (c st); reflexivity. Qed.

Lemma arrayIncludes_In arr x : arrayIncludes arr x = true <-> In x arr.
Proof.
  unfold arrayIncludes. rewrite existsb_exists. split.
  - intros [y [Hy E]]. apply String.eqb_eq in E. now subst.
  - intros H. exists x. split; [assumption | apply String.eqb_refl].
Qed.

Lemma nonEmpty_orElse x : nonEmpty (orElse x EmptyString) = truthy x.
Proof. destruct x as [[| c s] |]; reflexivity. Qed.

Lemma nonEmpty_append c s t : nonEmpty (String c s ++ t) = true.
Proof. reflexivity. Qed.

Lemma orElse_Some s d : nonEmpty s = true -> orElse (Some s) d = s.
Proof. unfold orElse. cbn [truthy]. now intros ->. Qed.

Lemma history_snoc2 {A} (l : list A) a b :
  (l ++ [a; b])%list = ((l ++ [a]) ++ [b])%list.
Proof. now rewrite <- app_assoc. Qed.

(* ================================================================== *)
(** * Strings: trimming, lines, letter case *)
(* ================================================================== *)

















Lemma toLowerChar_newline c :
  Ascii.eqb (toLowerChar c) newline = Ascii.eqb c newline.
Proof.
  destruct c as [[] [] [] [] [] [] [] []]; vm_compute; reflexivity.
Qed.

(** The ASCII engine lowers a text line by line. *)
Lemma asciiLowerCase_lines s :
  split_nl (asciiLowerCase s) = map asciiLowerCase (split_nl s).
Proof.
  induction s as [| c s IH]; cbn [asciiLowerCase split_nl]; [reflexivity |].
  rewrite toLowerChar_newline, IH.
  destruct (Ascii.eqb c newline); [reflexivity |].
  destruct (split_nl s); reflexivity.
Qed.

Lemma linuxEnv_lowers table files args :
  LowersLineByLine (linuxEnv table files args).
Proof. intros s. apply asciiLowerCase_lines. Qed.

Lemma prefix_refl s : String.prefix s s = true.
Proof.
  induction s as [| c s IH]; cbn; [reflexivity |].
  destruct (ascii_dec c c); [exact IH | congruence].
Qed.

Lemma prefix_app s t : String.prefix s (s ++ t) = true.
Proof.
  induction s as [| c s IH]; cbn; [now destruct t |].
  destruct (ascii_dec c c); [exact IH | congruence].
Qed.

Lemma prefix_occurs sub s :
  String.prefix sub s = true -> exists back, s = sub ++ back.
Proof.
  revert s. induction sub as [| c sub IH]; intros s H.
  - now exists s.
  - destruct s as [| d s]; cbn in H; [discriminate |].
    destruct (ascii_dec c d) as [-> | ]; [| discriminate].
    destruct (IH s H) as [back ->]. now exists back.
Qed.

(** [includes] is substring search. *)
Lemma includes_occursIn s sub : includes s sub = true <-> occursIn sub s.
Proof.
  split.
  - induction s as [| c s IH]; cbn [includes]; intros H.
    + apply prefix_occurs in H as [back ->]. now exists EmptyString, back.
    + apply orb_true_iff in H as [H | H].
      * apply prefix_occurs in H as [back ->]. now exists EmptyString, back.
      * destruct (IH H) as (front & back & ->).
        now exists (String c front), back.
  - intros (front & back & ->).
    induction front as [| c front IH]; cbn [append].
    + destruct (sub ++ back) eqn:E; cbn [includes].
      * destruct sub; [reflexivity | discriminate].
      * rewrite <- E, prefix_app. reflexivity.
    + cbn [includes]. rewrite IH. apply orb_true_r.
Qed.

Lemma includes_false s sub : includes s sub = false <-> ~ occursIn sub s.
Proof.
  rewrite <- includes_occursIn. destruct (includes s sub); split;
    congruence.
Qed.

Lemma append_empty_r s : s ++ EmptyString = s.
Proof. induction s as [| c s IH]; cbn; [reflexivity | now rewrite IH]. Qed.

Lemma endsWith_occursIn s suffix : endsWith s suffix -> occursIn suffix s.
Proof.
  intros [front ->]. exists front, EmptyString. now rewrite append_empty_r.
Qed.

(* ================================================================== *)
(** * Running the script on a symbolic state *)
(* ================================================================== *)

(** Runs of the script on a symbolic state.  The state is first opened
    into its fields, so that every projection computes; the strings are
    left as they are. *)
Ltac open_state st :=
  destruct st as [[passed_ failed_ warnings_ critical_ important_ optional_]
                    console_ executed_ reported_];
  cbn [results console executed reported
       passed failed warnings critical important optional] in *.

Ltac run_script :=
  cbv [exec bind ret when forEach forEachIndexed console_log console_clear
       updResults push_passed push_failed push_warnings push_critical
       push_important push_optional note_outcome executeCommand print printHeader
       printResult getResults isFailure isWarning isSuccess hasFix noOptions
       GUIDE fst snd results console executed reported fix_ criticality link
       passed failed warnings critical important optional
       o_status o_message o_details o_options andb orb negb];
  cbn [truthy nonEmpty andb orb negb].

Ltac run_more :=
  run_script; cbn [List.find List.length List.app truthy nonEmpty];
  rewrite ?nonEmpty_orElse, ?nonEmpty_append.

Ltac split_branches :=
  run_more;
  repeat (match goal with
          | |- context [if ?b then _ else _] => destruct b eqn:?
          | |- context [match ?x with Some _ => _ | None => _ end] =>
              destruct x eqn:?
          end; run_more).

Lemma ends_with_here {A} (l : list A) : exists pre, l = (pre ++ l)%list.
Proof. now exists []. Qed.

Lemma ends_with_later {A} (a : A) (l tail : list A) :
  (exists pre, l = (pre ++ tail)%list) ->
  exists pre, (a :: l) = (pre ++ tail)%list.
Proof. intros [pre ->]. now exists (a :: pre). Qed.

Lemma ends_with_app {A} (l0 l tail : list A) :
  (exists pre, l = (pre ++ tail)%list) ->
  exists pre, (l0 ++ l)%list = (l0 ++ pre ++ tail)%list.
Proof. intros [pre ->]. now exists pre. Qed.

Ltac find_tail :=
  repeat first [ apply ends_with_here | apply ends_with_later ].

Ltac find_member :=
  repeat first [ left; reflexivity | right ].

Ltac find_suffix :=
  rewrite <- ?app_assoc; cbn [List.app]; apply ends_with_app; find_tail.

(* ================================================================== *)
(** * The accumulator *)
(* ================================================================== *)

Lemma countStatus_snoc s os o :
  countStatus s (os ++ [o])
  = (countStatus s os + countStatus s [o])%nat.
Proof. unfold countStatus. now rewrite filter_app, length_app. Qed.

Ltac count_entries :=
  unfold Accounted, totalCount;
  cbn [results reported passed failed warnings critical important optional];
  rewrite ?length_app, ?countStatus_snoc;
  repeat match goal with
         | |- context [countStatus ?s [?o]] =>
             let v := eval cbv [countStatus filter o_status List.length]
                      in (countStatus s [o]) in
             change (countStatus s [o]) with v
         end;
  cbn [List.length];
  try lia.

Ltac adds_by_cases :=
  intros st; open_state st; split_branches;
  (split;
   [ count_entries
   | let H := fresh "Hacc" in
     intros H; unfold Accounted in H;
     cbn [results reported passed failed warnings critical important optional]
       in H;
     destruct H as (? & ? & ? & ?); count_entries ]).

Lemma Adds_bind {A B} k1 k2 (c : M A) (k : A -> M B) :
  Adds k1 (exec c) -> (forall a, Adds k2 (exec (k a))) ->
  Adds (k1 + k2) (exec (bind c k)).
Proof.
  intros H1 H2 st. rewrite exec_bind.
  destruct (H1 st) as [Hc1 Ha1].
  destruct (H2 (fst (c st)) (snd (c st))) as [Hc2 Ha2].
  unfold exec in *. split; [lia | auto].
Qed.

Lemma Adds_weaken k k' c : (k <= k')%nat -> Adds k c -> Adds k' c.
Proof. intros Hk H st. destruct (H st) as [Hc Ha]. split; [lia | exact Ha]. Qed.

Lemma Adds_step {A B} k1 k2 k (c : M A) (f : A -> M B) :
  (k1 + k2 <= k)%nat ->
  Adds k1 (exec c) -> (forall a, Adds k2 (exec (f a))) ->
  Adds k (exec (bind c f)).
Proof.
  intros Hk H1 H2. apply Adds_weaken with (k := (k1 + k2)%nat); [exact Hk |].
  now apply Adds_bind.
Qed.

Lemma Adds_ret {A} (a : A) : Adds 0 (exec (ret a)).
Proof. intros st. unfold exec, ret. cbn. split; [lia | auto]. Qed.

Lemma Adds_forEach {A} (xs : list A) (body : A -> M unit) :
  (forall x, Adds 1 (exec (body x))) ->
  Adds (List.length xs) (exec (forEach xs body)).
Proof.
  intros Hbody. induction xs as [| x xs IH]; cbn [forEach List.length].
  - apply Adds_ret.
  - change (S (List.length xs)) with (1 + List.length xs)%nat.
    apply Adds_bind; [apply Hbody | intros _; exact IH].
Qed.

Lemma print_adds message color : Adds 0 (exec (print message color)).
Proof. adds_by_cases. Qed.

Lemma console_log_adds line : Adds 0 (exec (console_log line)).
Proof. adds_by_cases. Qed.

Lemma printHeader_adds title : Adds 0 (exec (printHeader title)).
Proof. adds_by_cases. Qed.

Lemma executeCommand_adds env command :
  Adds 0 (exec (executeCommand env command)).
Proof. adds_by_cases. Qed.

Lemma checkNode_adds env : Adds 2 (exec (checkNode env)).
Proof. unfold checkNode. adds_by_cases. Qed.

Lemma findVSCodePath_adds env : Adds 0 (exec (findVSCodePath env)).
Proof.
  unfold findVSCodePath.
  apply (Adds_step 0 0); [lia | apply executeCommand_adds | intros inPath].
  destruct (truthy inPath); apply Adds_ret.
Qed.

Lemma vscodeNotFound_adds env : Adds 1 (exec (vscodeNotFound env)).
Proof. unfold vscodeNotFound. adds_by_cases. Qed.

Lemma checkVSCode_adds env : Adds 2 (exec (checkVSCode env)).
Proof.
  unfold checkVSCode.
  apply (Adds_step 0 2); [lia | apply printHeader_adds | intros _].
  apply (Adds_step 0 2); [lia | apply findVSCodePath_adds | intros vscodePath].
  assert (Hnot : Adds 2 (exec (vscodeNotFound env))).
  { apply Adds_weaken with (k := 1%nat); [lia | apply vscodeNotFound_adds]. }
  destruct (truthy vscodePath); [| exact Hnot].
  apply (Adds_step 0 2); [lia | apply executeCommand_adds | intros version].
  destruct (truthy version); [| exact Hnot].
  apply (Adds_step 0 2); [lia | apply executeCommand_adds | intros inPath].
  apply (Adds_step 2 0); [lia | | intros _; apply Adds_ret].
  destruct (truthy inPath).
  - apply Adds_weaken with (k := 1%nat); [lia |]. adds_by_cases.
  - unfold notInPathFix.
    destruct (String.eqb (platform env) "darwin");
      [| destruct (String.eqb (platform env) "win32")]; adds_by_cases.
Qed.

Lemma checkExtension_adds env vscodePath installedList entry :
  Adds 1 (exec (checkExtension env vscodePath installedList entry)).
Proof.
  destruct entry as [extId [extName [ | | ] extReason]];
    unfold checkExtension; cbn [name ext_criticality reason]; adds_by_cases.
Qed.

Lemma checkExtensions_adds env vscodePath :
  Adds 5 (exec (checkExtensions env vscodePath)).
Proof.
  unfold checkExtensions.
  apply (Adds_step 0 5); [lia | apply printHeader_adds | intros _].
  destruct (negb (truthy vscodePath)).
  - apply (Adds_step 0 0); [lia | apply print_adds | intros _].
    apply console_log_adds.
  - apply (Adds_step 0 5); [lia | |].
    + intros st. open_state st. run_script. split; [count_entries | auto].
    + intros installedExtensions. destruct (negb (truthy installedExtensions)).
      * apply (Adds_step 0 0); [lia | apply print_adds | intros _].
        apply (Adds_step 0 0); [lia | apply console_log_adds | intros _].
        apply console_log_adds.
      * apply (Adds_forEach requiredExtensions). intros x.
        apply checkExtension_adds.
Qed.

Lemma checkGit_adds env : Adds 4 (exec (checkGit env)).
Proof. unfold checkGit, checkGitConfig. adds_by_cases. Qed.

Lemma checkLocalRepo_adds env : Adds 5 (exec (checkLocalRepo env)).
Proof. unfold checkLocalRepo. adds_by_cases. Qed.

Lemma printManualChecklist_adds : Adds 0 (exec printManualChecklist).
Proof. unfold printManualChecklist. adds_by_cases. Qed.

Lemma printSummary_adds : Adds 0 (exec printSummary).
Proof. unfold printSummary, summaryFeedback. adds_by_cases. Qed.

Lemma main_adds env : Adds 18 (exec (main env)).
Proof.
  unfold main.
  apply (Adds_step 0 18); [lia | adds_by_cases | intros _].
  do 3 (apply (Adds_step 0 18); [lia | apply print_adds | intros _]).
  apply (Adds_step 2 16); [lia | apply checkNode_adds | intros _].
  apply (Adds_step 2 14); [lia | apply checkVSCode_adds | intros vscodePath].
  apply (Adds_step 5 9); [lia | apply checkExtensions_adds | intros _].
  apply (Adds_step 4 5); [lia | apply checkGit_adds | intros _].
  apply (Adds_step 5 0); [lia | apply checkLocalRepo_adds | intros _].
  apply (Adds_step 0 0); [lia | apply printManualChecklist_adds | intros _].
  apply printSummary_adds.
Qed.

Lemma initialState_accounted : Accounted initialState.
Proof. repeat split. Qed.

(** At the end of a run the three lists hold at most 18 entries, and the
    accounting of [Accounted] holds. *)
Lemma main_final (env : Env) :
  (totalCount (results (exec (main env) initialState)) <= 18)%nat
  /\ Accounted (exec (main env) initialState).
Proof.
  destruct (main_adds env initialState) as [Hc Ha]. split.
  - exact Hc.
  - apply Ha, initialState_accounted.
Qed.

(** A warning never reaches a severity bucket, whatever its tag. *)
Lemma printResult_warning_buckets message details options st :
  let st' := exec (printResult warning message details options) st in
  critical (results st') = critical (results st) /\
  important (results st') = important (results st) /\
  optional (results st') = optional (results st).
Proof.
  open_state st. destruct options as [[c |] [[steps | t] |] [l |]];
    split_branches; repeat split.
Qed.

(** C2, where the code leaves the invariant: in a repository without a
    remote, [checkLocalRepo] reports a warning tagged IMPORTANT, records
    it in warning-items, and records it in no severity bucket; the
    summary then reads "working correctly". *)
Lemma tagged_warning_in_no_bucket :
  let st' := exec (checkLocalRepo (without "git remote get-url origin"))
                  initialState in
  (exists o, In o (reported st') /\ o_status o = warning
             /\ o_message o = "No remote repository configured"
             /\ criticality (o_options o) = Some IMPORTANT) /\
  warnings (results st') = ["No remote configured"] /\
  critical (results st') = [] /\
  important (results st') = [] /\
  optional (results st') = [] /\
  console (exec (summaryFeedback (results st')) initialState)
  = messageLines OnlyOptional.
Proof.
  cbv zeta. split; [| repeat split].
  - eexists. split; [vm_compute; right; left; reflexivity | repeat split].
Qed.

(* ================================================================== *)
(** * What printResult prints *)
(* ================================================================== *)

Ltac not_headline :=
  let status := fresh "status" in
  let message := fresh "message" in
  let H := fresh "H" in
  intros (status & message & H); destruct status;
  cbv [headline statusColor symbols colors append] in H; discriminate H.

Ltac no_headlines := repeat (constructor; [not_headline |]); try constructor.

(** The numbered steps of a fix are plain lines. *)
Lemma steps_logged (steps : list string) :
  forall i st,
    exists lines,
      forEachIndexed i steps
        (fun index step =>
           console_log ("     " ++ showNat (index + 1) ++ ". " ++ step)) st
      = (tt, mkState (results st) (console st ++ lines)%list (executed st)
                     (reported st))
      /\ Forall (fun e => ~ isHeadline e) lines.
Proof.
  induction steps as [| step steps IH]; intros i st.
  - exists []. destruct st. cbn. rewrite app_nil_r. split; [reflexivity | constructor].
  - cbn [forEachIndexed]. unfold bind at 1. unfold console_log at 1.
    match goal with
    | |- context [forEachIndexed _ _ _ ?s] =>
        destruct (IH (S i) s) as (lines & E & Hall); rewrite E
    end.
    cbn [results console executed reported].
    exists (Log ("     " ++ showNat (i + 1) ++ ". " ++ step) :: lines).
    split; [now rewrite <- app_assoc |].
    constructor; [not_headline | exact Hall].
Qed.

(** Every call of [printResult] starts with the line that announces the
    result, in the color and with the symbol of its status; whatever it
    prints after that line announces nothing.  The history of outcomes
    grows by that one call. *)
Lemma printResult_announces status message details options st :
  let st' := exec (printResult status message details options) st in
  reported st'
  = (reported st ++ [mkOutcome status message details options])%list /\
  executed st' = executed st /\
  exists rest,
    console st' = (console st ++ headline status message :: rest)%list
    /\ Forall (fun e => ~ isHeadline e) rest.
Proof.
  cbv zeta. open_state st. destruct options as [c f l].
  unfold printResult.
  destruct f as [[steps | text] |].
  - cbn [fix_]. set (body := forEachIndexed 0 steps _).
    destruct status, c as [[ | | ] |], l as [l |];
      split_branches;
      try match goal with
          | |- context [?f ?s] =>
              constr_eq f body;
              destruct (steps_logged steps 0 s) as (lines & E & Hall);
              subst body; rewrite E; split_branches
          end;
      (split; [reflexivity | split; [reflexivity |]]);
      rewrite <- ?app_assoc; cbn [List.app];
      (eexists; split; [unfold headline, statusColor; reflexivity |]);
      repeat first [ exact Hall
                   | apply Forall_app; split
                   | constructor; [not_headline |]
                   | constructor ].
  - destruct status, c as [[ | | ] |], l as [l |];
      split_branches;
      (split; [reflexivity | split; [reflexivity |]]);
      rewrite <- ?app_assoc; cbn [List.app];
      (eexists; split; [unfold headline, statusColor; reflexivity |]);
      no_headlines.
  - destruct status, c as [[ | | ] |], l as [l |];
      split_branches;
      (split; [reflexivity | split; [reflexivity |]]);
      rewrite <- ?app_assoc; cbn [List.app];
      (eexists; split; [unfold headline, statusColor; reflexivity |]);
      no_headlines.
Qed.

(* ================================================================== *)
(** * The summary *)
(* ================================================================== *)

Lemma summaryFeedback_console (r : Results) (st : State) :
  console (exec (summaryFeedback r) st)
  = (console st
     ++ messageLines (selectedMessage (List.length (critical r))
                        (List.length (important r)) (List.length (failed r))
                        (List.length (warnings r))))%list.
Proof.
  unfold summaryFeedback, selectedMessage.
  destruct (List.length (failed r)), (List.length (warnings r)),
    (List.length (critical r)), (List.length (important r));
    run_script; cbn [Nat.eqb Nat.leb Nat.ltb andb messageLines];
    run_script; rewrite <- ?app_assoc; reflexivity.
Qed.

Lemma printSummary_console (st : State) :
  In (rateLine (passRate (results st))) (console (exec printSummary st)) /\
  (exists pre,
     console (exec printSummary st)
     = (console st ++ pre
        ++ messageLines (selectedMessage
                           (List.length (critical (results st)))
                           (List.length (important (results st)))
                           (List.length (failed (results st)))
                           (List.length (warnings (results st))))
        ++ summaryFooter)%list).
Proof.
  open_state st. unfold printSummary, summaryFeedback, selectedMessage.
  destruct failed_, warnings_, critical_, important_, optional_;
    cbn [List.length Nat.eqb Nat.ltb Nat.leb andb orb];
    run_script;
    cbn [List.length Nat.eqb Nat.ltb Nat.leb andb orb messageLines];
    run_script; rewrite <- ?app_assoc; cbn [List.app];
    (split;
     [ apply in_or_app; right; unfold rateLine; find_member
     | apply ends_with_app; unfold summaryFooter, GUIDE; find_tail ]).
Qed.

Lemma printSummary_results (st : State) :
  results (exec printSummary st) = results st.
Proof.
  open_state st. unfold printSummary, summaryFeedback.
  destruct failed_, warnings_, critical_, important_, optional_;
    cbn [List.length Nat.eqb Nat.ltb Nat.leb andb orb];
    run_script;
    cbn [List.length Nat.eqb Nat.ltb Nat.leb andb orb];
    run_script; reflexivity.
Qed.

Lemma main_ends_with_summary (env : Env) :
  exists st, exec (main env) initialState = exec printSummary st
             /\ (totalCount (results st) <= 18)%nat.
Proof.
  pose proof (main_final env) as [Hc _]. revert Hc.
  unfold main. rewrite !exec_bind. intros Hc.
  eexists. split; [reflexivity |].
  rewrite printSummary_results in Hc. exact Hc.
Qed.

Lemma messageLines_last_inj (pre pre' : list ConsoleEvent) m m' :
  (pre ++ messageLines m)%list = (pre' ++ messageLines m')%list -> m = m'.
Proof.
  intros H.
  assert (E : forall m0, exists init lastLine,
               messageLines m0 = (init ++ [lastLine])%list
               /\ lastLine = List.last (messageLines m0) Clear).
  { intros m0. destruct m0; cbn [messageLines];
      [ eexists [_] | eexists [_; _] | eexists [_] | eexists [_] ];
      eexists; split; reflexivity. }
  destruct (E m) as (i1 & l1 & E1 & L1), (E m') as (i2 & l2 & E2 & L2).
  rewrite E1, E2, !app_assoc in H. apply app_inj_tail in H as [_ Hl].
  rewrite L1, L2 in Hl. destruct m, m'; try reflexivity; discriminate Hl.
Qed.

(** C1. The summary prints, just before its closing lines, one of the four
    messages, chosen from the four counts by the stated precedence, and no
    other; the four conditions are exclusive and cover every case. *)
Theorem summary_message_precedence (st : State) :
  let c := List.length (critical (results st)) in
  let i := List.length (important (results st)) in
  let f := List.length (failed (results st)) in
  let w := List.length (warnings (results st)) in
  let printed m :=
    exists pre,
      console (exec printSummary st)
      = (console st ++ pre ++ messageLines m ++ summaryFooter)%list in
  (printed AllClear <-> f = 0 /\ w = 0) /\
  (printed OnlyOptional <-> ~ (f = 0 /\ w = 0) /\ (c = 0 /\ i = 0)) /\
  (printed MustFix <-> ~ (f = 0 /\ w = 0) /\ ~ (c = 0 /\ i = 0) /\ c > 0) /\
  (printed NeedsAttention <->
     ~ (f = 0 /\ w = 0) /\ ~ (c = 0 /\ i = 0) /\ ~ c > 0) /\
  (exists! m, printed m).
Proof.
  intros c i f w printed.
  assert (Hsel : forall m, printed m <-> m = selectedMessage c i f w).
  { intros m. unfold printed.
    destruct (printSummary_console st) as [_ [pre0 Hpre0]].
    fold c i f w in Hpre0. split.
    - intros [pre H]. rewrite Hpre0 in H. apply app_inv_head in H.
      rewrite !app_assoc in H. apply app_inv_tail in H.
      symmetry. eapply messageLines_last_inj. exact H.
    - intros ->. now exists pre0. }
  assert (Hcases :
    (selectedMessage c i f w = AllClear /\ f = 0 /\ w = 0) \/
    (selectedMessage c i f w = OnlyOptional /\ ~ (f = 0 /\ w = 0) /\ c = 0 /\ i = 0) \/
    (selectedMessage c i f w = MustFix /\ ~ (f = 0 /\ w = 0) /\ ~ (c = 0 /\ i = 0) /\ c > 0) \/
    (selectedMessage c i f w = NeedsAttention
     /\ ~ (f = 0 /\ w = 0) /\ ~ (c = 0 /\ i = 0) /\ ~ c > 0)).
  { unfold selectedMessage.
    destruct f, w, c, i; cbn; intuition (try lia; try discriminate). }
  assert (Hiff : forall m (P : Prop),
            (selectedMessage c i f w = m -> P) ->
            (P -> selectedMessage c i f w = m) -> (printed m <-> P)).
  { intros m P H1 H2. rewrite Hsel. split; intros H.
    - apply H1. now symmetry.
    - symmetry. now apply H2. }
  refine (conj _ (conj _ (conj _ (conj _ _)))).
  1-4: apply Hiff; intros H; decompose [and or] Hcases;
       try congruence; try tauto; try lia.
  exists (selectedMessage c i f w). split.
  - now apply Hsel.
  - intros m Hm. symmetry. now apply Hsel.
Qed.

Lemma rateTable_sound (bound : nat) :
  rateTable bound = true ->
  forall p total, (p <= total)%nat -> (total < bound)%nat ->
                  rateOf p total = roundedOf p total.
Proof.
  unfold rateTable. intros H p total Hp Ht.
  rewrite forallb_forall in H. specialize (H total).
  rewrite forallb_forall in H.
  apply Z.eqb_eq. apply H; apply in_seq; lia.
Qed.

Lemma rateTable_40 : rateTable 40 = true.
Proof. vm_compute. reflexivity. Qed.

Lemma rateOf_rounded (p total : nat) :
  (p <= total)%nat -> (total < 40)%nat -> rateOf p total = roundedOf p total.
Proof. exact (rateTable_sound 40 rateTable_40 p total). Qed.

(** Binary64 arithmetic is what [passRate] computes with, and 40 is where
    it first parts from the exact quotient: 23 of 40 is 57.5 exactly, the
    product [(23 / 40) * 100] is a little below, and rounds to 57. *)
Lemma rateOf_23_of_40 :
  (Z.eqb (rateOf 23 40) 57 && Z.eqb (roundedOf 23 40) 58) = true.
Proof. vm_compute. reflexivity. Qed.

Lemma passRate_rounded (r : Results) :
  (totalCount r < 40)%nat ->
  passRate r = roundedPercent (List.length (passed r)) (List.length (failed r))
                              (List.length (warnings r)).
Proof.
  intros H. unfold totalCount in H.
  change (passRate r)
    with (rateOf (List.length (passed r))
            (List.length (passed r) + List.length (failed r)
             + List.length (warnings r))).
  rewrite rateOf_rounded by lia. reflexivity.
Qed.

(** C3. At the end of every run the rate that [printSummary] computes and
    prints is round(100 x passed / (passed + failed + warned)), a tie
    going up; and on an accumulator whose three lists are empty it is 0. *)
Theorem completion_rate_rounded :
  (forall env : Env,
     let st := exec (main env) initialState in
     let r := results st in
     passRate r = roundedPercent (List.length (passed r)) (List.length (failed r))
                                 (List.length (warnings r)) /\
     In (rateLine (roundedPercent (List.length (passed r)) (List.length (failed r))
                                  (List.length (warnings r))))
        (console st)) /\
  (forall st : State,
     passed (results st) = [] -> failed (results st) = [] ->
     warnings (results st) = [] ->
     passRate (results st) = 0%Z /\
     In (rateLine 0) (console (exec printSummary st))).
Proof.
  split.
  - intros env st r.
    destruct (main_ends_with_summary env) as (st0 & Hst & Hc).
    assert (Hr : r = results st0).
    { unfold r, st. rewrite Hst. apply printSummary_results. }
    assert (Hrate : passRate r
                    = roundedPercent (List.length (passed r))
                        (List.length (failed r)) (List.length (warnings r))).
    { apply passRate_rounded. rewrite Hr. lia. }
    split; [exact Hrate |].
    rewrite <- Hrate. unfold st. rewrite Hst, Hr.
    apply printSummary_console.
  - intros st Hp Hf Hw.
    assert (Hzero : passRate (results st) = 0%Z).
    { unfold passRate. rewrite Hp, Hf, Hw. reflexivity. }
    split; [exact Hzero |].
    rewrite <- Hzero. apply printSummary_console.
Qed.

Lemma completion_rate_rounded_witness :
  In (rateLine 0) (console (exec printSummary initialState)) /\
  In (rateLine 100) (console (exec (main fullEnv) initialState)).
Proof.
  destruct completion_rate_rounded as [Hrun Hzero]. split.
  - apply (Hzero initialState); reflexivity.
  - destruct (Hrun fullEnv) as [_ H]. vm_compute in H. vm_compute. exact H.
Defined.

(* ================================================================== *)
(** * The help flag *)
(* ================================================================== *)

(** C9. With [--help] or [-h] among the arguments the run prints the usage
    text and exits with status 0; [main] never starts, so no command is
    executed, no outcome is reported and the six lists stay empty. *)
Theorem help_flag_exits_before_probes (env : Env) :
  In "--help" (argv env) \/ In "-h" (argv env) ->
  script env = (Exited 0, mkState emptyResults [Log HELP_TEXT] [] []).
Proof.
  intros H. unfold script.
  assert (arrayIncludes (argv env) "--help" || arrayIncludes (argv env) "-h"
          = true) as ->.
  { apply orb_true_iff. destruct H as [H | H]; [left | right];
      now apply arrayIncludes_In. }
  reflexivity.
Qed.

Lemma help_flag_exits_before_probes_witness :
  script helpEnv = (Exited 0, mkState emptyResults [Log HELP_TEXT] [] []).
Proof.
  apply help_flag_exits_before_probes. left. cbn. tauto.
Defined.

(* ================================================================== *)
(** * The Git probe *)
(* ================================================================== *)



Ltac no_such_front H front :=
  repeat (destruct front as [| ? front]; cbn in H;
          [discriminate H | injection H as _ H]);
  destruct front; discriminate H.

(** What the domain check of [checkGit] does with a configured address:
    the test is [includes], so an address that holds "@ocadu.ca" or
    "@ocad.ca" anywhere is announced as an OCADU address and counted as
    passed; any other address gets the warning, of which the console shows
    the announcement and the detail line only, and the entry
    "Non-OCADU email" in warning-items. *)
Lemma checkGit_email_includes (env : Env) (st : State) (rawEmail : string) :
  truthy (option_map trim (execSync env (executed st) "git --version")) = true ->
  execSync env
    (executed st ++ ["git --version"; "git config --global user.name"])%list
    "git config --global user.email" = Some rawEmail ->
  let userEmail := trim rawEmail in
  nonEmpty userEmail = true ->
  let st' := exec (checkGit env) st in
  (includes userEmail "@ocadu.ca" || includes userEmail "@ocad.ca" = true ->
   (exists earlier,
      console st'
      = (console st ++ earlier
         ++ [headline success "Using OCADU email address"])%list) /\
   (exists earlier,
      passed (results st')
      = (passed (results st) ++ earlier ++ ["OCADU email configured"])%list) /\
   warnings (results st') = warnings (results st)) /\
  (includes userEmail "@ocadu.ca" || includes userEmail "@ocad.ca" = false ->
   (exists earlier,
      console st'
      = (console st ++ earlier
         ++ [ headline warning "Not using OCADU email address";
              Log "  Recommended for GitHub Education benefits";
              Log EmptyString ])%list) /\
   warnings (results st') = (warnings (results st) ++ ["Non-OCADU email"])%list /\
   optional (results st') = optional (results st)).
Proof.
  intros Hgit Hemail userEmail Hne st'. subst userEmail st'.
  open_state st. rewrite history_snoc2 in Hemail.
  unfold checkGit, checkGitConfig. run_more. rewrite Hgit. run_more.
  rewrite Hemail. cbn [option_map truthy]. rewrite Hne.
  rewrite (orElse_Some _ _ Hne).
  split; intros Hdomain.
  - apply orb_true_iff in Hdomain.
    split_branches;
      try (exfalso; destruct Hdomain as [Hd | Hd]; rewrite Hd in *;
           match goal with
           | H : _ = false |- _ =>
               first [ discriminate H
                     | destruct (includes (trim rawEmail) "@ocadu.ca");
                       discriminate H ]
           end);
      (split; [| split; [| reflexivity]]);
      unfold headline, statusColor; find_suffix.
  - apply orb_false_iff in Hdomain as [Hno1 Hno2]. rewrite Hno1, Hno2.
    split_branches;
      (split; [| split; reflexivity]);
      unfold headline, statusColor; find_suffix.
Qed.

(** C4. The address "student@ocadu.ca.example.com" ends with neither
    institutional suffix, and [checkGit] still announces "Using OCADU email
    address", counts "OCADU email configured" among the passed items, and
    issues no warning: the source tests with [includes] where its comment
    and its message speak of the address being an OCADU one. *)
Theorem email_outside_domain_accepted :
  let userEmail := "student@ocadu.ca.example.com" in
  let st' := exec (checkGit (withAnswer "git config --global user.email"
                                        (userEmail ++ nl)))
                  initialState in
  ~ endsWith userEmail "@ocadu.ca" /\
  ~ endsWith userEmail "@ocad.ca" /\
  (exists pre,
     console st' = (pre ++ [headline success "Using OCADU email address"])%list) /\
  In "OCADU email configured" (passed (results st')) /\
  (forall message, ~ In (headline warning message) (console st')) /\
  warnings (results st') = [].
Proof.
  cbv zeta. split; [| split; [| split; [| split; [| split]]]].
  - intros [front H]. no_such_front H front.
  - intros [front H]. no_such_front H front.
  - vm_compute. find_tail.
  - vm_compute. find_member.
  - intros message H. vm_compute in H. decompose [or] H;
      try contradiction; discriminate.
  - reflexivity.
Qed.

(* ================================================================== *)
(** * The extension probe *)
(* ================================================================== *)

(** C8 (as amended). Without an editor path [checkExtensions] prints the
    section header and two lines, the skip notice and the advice to install
    the editor first; it runs no command, reports no outcome, and leaves
    the six lists as they were. *)
Theorem checkExtensions_without_editor (env : Env) (st : State) :
  exec (checkExtensions env None) st =
  mkState (results st)
    (console st
     ++ headerLines "Checking VS Code Extensions"
     ++ [ Log (colors yellow ++ "⊘ Skipping extensions check - VS Code not found"
               ++ colors reset);
          Log "  Install VS Code first, then run this script again" ])%list
    (executed st) (reported st).
Proof.
  unfold checkExtensions. run_script. unfold headerLines.
  rewrite <- !app_assoc. reflexivity.
Qed.

(** C8 in its original wording does not hold: what follows the header is
    not a single line. *)
Lemma checkExtensions_without_editor_not_one_line :
  ~ (exists line,
       console (exec (checkExtensions bareEnv None) initialState)
       = (headerLines "Checking VS Code Extensions" ++ [line])%list)
  /\ ~ (exists line,
       console (exec (checkExtensions bareEnv None) initialState) = [line]).
Proof.
  split; intros [line H]; vm_compute in H; discriminate H.
Qed.

Lemma checkExtension_round env vscodePath installedList entry st :
  let st' := exec (checkExtension env vscodePath installedList entry) st in
  (exists lines, console st' = (console st ++ lines)%list
                 /\ roundLines env installedList entry lines) /\
  passed (results st')
  = (passed (results st)
     ++ (if listed env installedList entry then [extensionLabel entry]
         else []))%list /\
  failed (results st')
  = (failed (results st)
     ++ (if listed env installedList entry then []
         else [extensionLabel entry]))%list.
Proof.
  destruct entry as [extId [extName [ | | ] extReason]];
    open_state st;
    unfold checkExtension, roundLines, announcement, listed, extensionLabel,
      installedLine, missingLine;
    cbn [fst snd name ext_criticality reason];
    destruct (arrayIncludes installedList (toLowerCase env extId));
    split_branches;
    (split; [| rewrite ?app_nil_r; split; reflexivity]);
    rewrite <- ?app_assoc; cbn [List.app];
    (eexists; split; [reflexivity |]);
    (eexists; split; [unfold headline, statusColor; reflexivity |]);
    no_headlines.
Qed.

Lemma forEach_rounds env vscodePath installedList entries st :
  let st' := exec (forEach entries (checkExtension env vscodePath installedList))
                  st in
  (exists blocks,
     console st' = (console st ++ concat blocks)%list
     /\ Forall2 (roundLines env installedList) entries blocks) /\
  passed (results st')
  = (passed (results st)
     ++ map extensionLabel (filter (listed env installedList) entries))%list /\
  failed (results st')
  = (failed (results st)
     ++ map extensionLabel
          (filter (fun entry => negb (listed env installedList entry))
                  entries))%list.
Proof.
  revert st. induction entries as [| entry entries IH]; intros st; cbn zeta.
  - cbn [forEach filter map]. unfold exec, ret. cbn [snd].
    rewrite !app_nil_r. split; [| split; reflexivity].
    exists []. cbn [concat]. rewrite app_nil_r. split; [reflexivity | constructor].
  - cbn [forEach]. rewrite exec_bind.
    pose proof (checkExtension_round env vscodePath installedList entry st)
      as [(lines & Hlines & Hround) [Hpassed Hfailed]].
    unfold exec in *.
    set (st1 := snd (checkExtension env vscodePath installedList entry st)) in *.
    destruct (IH st1) as [(blocks & Hblocks & Hall) [Hp Hf]]. unfold exec in *.
    split; [| split].
    + exists (lines :: blocks). cbn [concat].
      rewrite Hblocks, Hlines, <- app_assoc. split; [reflexivity |].
      now constructor.
    + rewrite Hp, Hpassed, <- app_assoc. f_equal. cbn [filter].
      destruct (listed env installedList entry); reflexivity.
    + rewrite Hf, Hfailed, <- app_assoc. f_equal. cbn [filter].
      destruct (listed env installedList entry); reflexivity.
Qed.

(** Every entry is announced, and every announcement on the console of the
    loop is the one of an entry. *)
Lemma rounds_announced env installedList entries blocks entry :
  Forall2 (roundLines env installedList) entries blocks ->
  In entry entries ->
  In (announcement env installedList entry) (concat blocks).
Proof.
  induction 1 as [| e block es blocks' (rest & -> & _) _ IH]; intros Hin;
    [easy |].
  cbn [concat]. destruct Hin as [-> | Hin].
  - now left.
  - apply in_or_app. right. now apply IH.
Qed.

Lemma rounds_announcement_from env installedList entries blocks e :
  Forall2 (roundLines env installedList) entries blocks ->
  In e (concat blocks) -> isHeadline e ->
  exists entry, In entry entries /\ e = announcement env installedList entry.
Proof.
  induction 1 as [| entry block es blocks' (rest & -> & Hrest) _ IH];
    intros Hin Hhead; [easy |].
  cbn [concat List.app] in Hin. destruct Hin as [<- | Hin].
  - exists entry. split; [now left | reflexivity].
  - apply in_app_or in Hin as [Hin | Hin].
    + rewrite Forall_forall in Hrest. now destruct (Hrest e Hin).
    + destruct (IH Hin Hhead) as (entry' & He & Hann).
      exists entry'. split; [now right | exact Hann].
Qed.

(** The five required extensions are told apart by their display names,
    and so by their lines and by their labels. *)
Lemma required_same_line entry entry' :
  In entry requiredExtensions -> In entry' requiredExtensions ->
  installedLine (snd entry) = installedLine (snd entry')
  \/ missingLine (snd entry) = missingLine (snd entry')
  \/ extensionLabel entry = extensionLabel entry' ->
  entry = entry'.
Proof.
  intros H H' E. unfold requiredExtensions in *. cbn [In] in H, H'.
  decompose [or] H; decompose [or] H'; decompose [or] E; subst;
    try contradiction; first [reflexivity | discriminate].
Qed.

Lemma installedLine_headline extInfo : isHeadline (installedLine extInfo).
Proof. now eexists _, _. Qed.

Lemma missingLine_headline extInfo : isHeadline (missingLine extInfo).
Proof. now eexists _, _. Qed.

Lemma installed_not_missing extInfo extInfo' :
  installedLine extInfo <> missingLine extInfo'.
Proof.
  cbv [installedLine missingLine headline statusColor symbols colors append].
  discriminate.
Qed.

(** What the probe leaves once the list of installed extensions is in
    hand: after the header, one block of console lines per required
    extension, and one entry of passed-items or of failed-items. *)
Lemma checkExtensions_rounds env st vscodePath raw :
  nonEmpty vscodePath = true ->
  execSync env (executed st) (dq ++ vscodePath ++ dq ++ " --list-extensions")
  = Some raw ->
  nonEmpty (trim raw) = true ->
  let installedList := split_nl (toLowerCase env (trim raw)) in
  let st' := exec (checkExtensions env (Some vscodePath)) st in
  (exists blocks,
     console st'
     = (console st ++ headerLines "Checking VS Code Extensions"
        ++ concat blocks)%list
     /\ Forall2 (roundLines env installedList) requiredExtensions blocks) /\
  passed (results st')
  = (passed (results st)
     ++ map extensionLabel
          (filter (listed env installedList) requiredExtensions))%list /\
  failed (results st')
  = (failed (results st)
     ++ map extensionLabel
          (filter (fun entry => negb (listed env installedList entry))
                  requiredExtensions))%list.
Proof.
  intros Hpath Hraw Hne installedList st'. subst installedList st'.
  unfold checkExtensions. rewrite !exec_bind.
  cbn [truthy negb]. rewrite Hpath. cbn [negb].
  rewrite (orElse_Some _ _ Hpath). rewrite exec_bind.
  set (st0 := snd (printHeader "Checking VS Code Extensions" st)).
  assert (Hst0 : executed st0 = executed st
                 /\ console st0
                    = (console st
                       ++ headerLines "Checking VS Code Extensions")%list
                 /\ results st0 = results st).
  { subst st0. open_state st. run_script. unfold headerLines.
    rewrite <- !app_assoc. repeat split. }
  destruct Hst0 as (He & Hc & Hres).
  assert (Hcmd : fst (executeCommand env
                        (dq ++ vscodePath ++ dq ++ " --list-extensions") st0)
                 = Some (trim raw)).
  { unfold executeCommand. cbn [fst]. now rewrite He, Hraw. }
  rewrite Hcmd. cbn [truthy]. rewrite Hne. cbn [negb].
  rewrite (orElse_Some _ _ Hne).
  set (st1 := snd (executeCommand env
                     (dq ++ vscodePath ++ dq ++ " --list-extensions") st0)).
  assert (Hst1 : console st1
                 = (console st
                    ++ headerLines "Checking VS Code Extensions")%list
                 /\ results st1 = results st).
  { subst st1. unfold executeCommand. cbn [snd console results]. now split. }
  destruct Hst1 as (Hc1 & Hres1).
  pose proof (forEach_rounds env vscodePath
                (split_nl (toLowerCase env (trim raw))) requiredExtensions st1)
    as H.
  cbv zeta in H. rewrite Hc1, Hres1 in H.
  destruct H as [(blocks & Hblocks & Hall) Hlists].
  split; [| exact Hlists].
  exists blocks. split; [| exact Hall].
  rewrite Hblocks. apply eq_sym, app_assoc.
Qed.

Lemma listed_whole_line env installedList extId extInfo :
  listed env installedList (extId, extInfo) = true
  <-> In (toLowerCase env extId) installedList.
Proof. unfold listed. cbn [fst]. apply arrayIncludes_In. Qed.

(** How one required extension fares, by the test of the loop. *)
Lemma required_extension_fate env installedList blocks entry :
  Forall2 (roundLines env installedList) requiredExtensions blocks ->
  In entry requiredExtensions ->
  let ps := map extensionLabel
              (filter (listed env installedList) requiredExtensions) in
  let fs := map extensionLabel
              (filter (fun entry => negb (listed env installedList entry))
                      requiredExtensions) in
  (In (installedLine (snd entry)) (concat blocks)
   <-> listed env installedList entry = true) /\
  (In (extensionLabel entry) ps <-> listed env installedList entry = true) /\
  (In (missingLine (snd entry)) (concat blocks)
   <-> listed env installedList entry = false) /\
  (In (extensionLabel entry) fs <-> listed env installedList entry = false).
Proof.
  intros Hall Hreq ps fs. subst ps fs.
  pose proof (rounds_announced _ _ _ _ _ Hall Hreq) as Hann.
  unfold announcement in Hann.
  repeat split.
  - intros Hin.
    destruct (rounds_announcement_from _ _ _ _ _ Hall Hin
                (installedLine_headline _)) as (entry' & He & E).
    unfold announcement in E. destruct (listed env installedList entry') eqn:Hl.
    + now rewrite (required_same_line entry entry' Hreq He (or_introl E)).
    + now destruct (installed_not_missing _ _ E).
  - intros Hl. now rewrite Hl in Hann.
  - intros Hin. apply in_map_iff in Hin as (entry' & E & Hin).
    apply filter_In in Hin as [He Hl].
    now rewrite (required_same_line entry entry' Hreq He
                   (or_intror (or_intror (eq_sym E)))).
  - intros Hl. apply in_map, filter_In. now split.
  - intros Hin.
    destruct (rounds_announcement_from _ _ _ _ _ Hall Hin
                (missingLine_headline _)) as (entry' & He & E).
    unfold announcement in E. destruct (listed env installedList entry') eqn:Hl.
    + now destruct (installed_not_missing _ _ (eq_sym E)).
    + now rewrite (required_same_line entry entry' Hreq He
                     (or_intror (or_introl E))).
  - intros Hl. now rewrite Hl in Hann.
  - intros Hin. apply in_map_iff in Hin as (entry' & E & Hin).
    apply filter_In in Hin as [He Hl]. apply negb_true_iff in Hl.
    now rewrite (required_same_line entry entry' Hreq He
                   (or_intror (or_intror (eq_sym E)))).
  - intros Hl. apply in_map, filter_In. split; [exact Hreq |].
    now apply negb_true_iff.
Qed.

(** C10. With the list of installed extensions in hand, a required
    extension is announced as installed, and counted in passed-items,
    exactly when some whole line of the lowercased output equals its
    lowercased identifier; it is announced as NOT installed, and counted in
    failed-items, exactly when no line does.  To occur inside a longer line
    is not enough. *)
Theorem extension_installed_iff_whole_line env st vscodePath raw :
  nonEmpty vscodePath = true ->
  execSync env (executed st) (dq ++ vscodePath ++ dq ++ " --list-extensions")
  = Some raw ->
  nonEmpty (trim raw) = true ->
  let installedExtensions := trim raw in
  let st' := exec (checkExtensions env (Some vscodePath)) st in
  exists lines ps fs,
    console st'
    = (console st ++ headerLines "Checking VS Code Extensions" ++ lines)%list /\
    passed (results st') = (passed (results st) ++ ps)%list /\
    failed (results st') = (failed (results st) ++ fs)%list /\
    forall extId extInfo,
      In (extId, extInfo) requiredExtensions ->
      let wholeLine :=
        In (toLowerCase env extId)
           (split_nl (toLowerCase env installedExtensions)) in
      (In (installedLine extInfo) lines <-> wholeLine) /\
      (In ("Extension: " ++ name extInfo) ps <-> wholeLine) /\
      (In (missingLine extInfo) lines <-> ~ wholeLine) /\
      (In ("Extension: " ++ name extInfo) fs <-> ~ wholeLine).
Proof.
  intros Hpath Hraw Hne installedExtensions st'.
  destruct (checkExtensions_rounds env st vscodePath raw Hpath Hraw Hne)
    as [(blocks & Hconsole & Hall) [Hpassed Hfailed]].
  exists (concat blocks). eexists. eexists.
  split; [exact Hconsole | split; [exact Hpassed | split; [exact Hfailed |]]].
  intros extId extInfo Hreq wholeLine. subst wholeLine installedExtensions.
  destruct (required_extension_fate env _ blocks (extId, extInfo) Hall Hreq)
    as (Hi & Hp & Hm & Hf).
  cbn [snd] in Hi, Hm.
  change (extensionLabel (extId, extInfo))
    with ("Extension: " ++ name extInfo) in Hp, Hf.
  rewrite <- (listed_whole_line env _ extId extInfo).
  rewrite Hi, Hp, Hm, Hf.
  destruct (listed env _ (extId, extInfo)); intuition congruence.
Qed.

(** A longer identifier that merely contains "eamodio.gitlens" does not
    make GitLens installed. *)
Lemma extension_installed_iff_whole_line_witness :
  let installedExtensions := "eamodio.gitlens-insiders" in
  let gitLens :=
    mkExtInfo "GitLens" IMPORTANT "Enhances Git workflow and visualization" in
  let st' := exec (checkExtensions
                     (withAnswer (dq ++ "code" ++ dq ++ " --list-extensions")
                                 (installedExtensions ++ nl))
                     (Some "code"))
                  initialState in
  occursIn "eamodio.gitlens" installedExtensions /\
  exists lines ps fs,
    console st'
    = ([] ++ headerLines "Checking VS Code Extensions" ++ lines)%list /\
    passed (results st') = ([] ++ ps)%list /\
    failed (results st') = ([] ++ fs)%list /\
    In (missingLine gitLens) lines /\ In "Extension: GitLens" fs /\
    ~ In (installedLine gitLens) lines /\ ~ In "Extension: GitLens" ps.
Proof.
  cbv zeta. split.
  - now exists EmptyString, "-insiders".
  - destruct (extension_installed_iff_whole_line
                (withAnswer (dq ++ "code" ++ dq ++ " --list-extensions")
                            ("eamodio.gitlens-insiders" ++ nl))
                initialState "code" ("eamodio.gitlens-insiders" ++ nl)
                eq_refl eq_refl eq_refl) as (lines & ps & fs & Hc & Hp & Hf & H).
    exists lines, ps, fs.
    split; [exact Hc | split; [exact Hp | split; [exact Hf |]]].
    destruct (H "eamodio.gitlens"
                (mkExtInfo "GitLens" IMPORTANT
                           "Enhances Git workflow and visualization"))
      as (Hi & Hps & Hm & Hfs); [now left |].
    assert (Hno : ~ In "eamodio.gitlens" ["eamodio.gitlens-insiders"]).
    { cbn. intros [E | []]. discriminate E. }
    split; [apply Hm, Hno | split; [apply Hfs, Hno | split]].
    + intros Hin. apply Hno, Hi, Hin.
    + intros Hin. apply Hno, Hps, Hin.
Defined.

(** C5. The match ignores letter case: when some line of the list of
    installed extensions is a required identifier up to letter case, the
    probe announces that extension as installed and counts it in
    passed-items; it does not announce it as NOT installed and does not
    count it in failed-items.  The engine is taken to lower a text line by
    line. *)
Theorem extension_match_ignores_case env st vscodePath raw :
  LowersLineByLine env ->
  nonEmpty vscodePath = true ->
  execSync env (executed st) (dq ++ vscodePath ++ dq ++ " --list-extensions")
  = Some raw ->
  nonEmpty (trim raw) = true ->
  let installedExtensions := trim raw in
  let st' := exec (checkExtensions env (Some vscodePath)) st in
  exists lines ps fs,
    console st'
    = (console st ++ headerLines "Checking VS Code Extensions" ++ lines)%list /\
    passed (results st') = (passed (results st) ++ ps)%list /\
    failed (results st') = (failed (results st) ++ fs)%list /\
    forall extId extInfo line,
      In (extId, extInfo) requiredExtensions ->
      In line (split_nl installedExtensions) ->
      sameUpToCase env line extId ->
      In (installedLine extInfo) lines /\
      In ("Extension: " ++ name extInfo) ps /\
      ~ In (missingLine extInfo) lines /\
      ~ In ("Extension: " ++ name extInfo) fs.
Proof.
  intros Hlower Hpath Hraw Hne installedExtensions st'.
  destruct (checkExtensions_rounds env st vscodePath raw Hpath Hraw Hne)
    as [(blocks & Hconsole & Hall) [Hpassed Hfailed]].
  exists (concat blocks). eexists. eexists.
  split; [exact Hconsole | split; [exact Hpassed | split; [exact Hfailed |]]].
  intros extId extInfo line Hreq Hline Hcase.
  assert (Hl : listed env (split_nl (toLowerCase env (trim raw)))
                 (extId, extInfo) = true).
  { apply listed_whole_line. rewrite Hlower.
    unfold sameUpToCase in Hcase. rewrite <- Hcase. now apply in_map. }
  destruct (required_extension_fate env _ blocks (extId, extInfo) Hall Hreq)
    as (Hi & Hp & Hm & Hf).
  cbn [snd] in Hi, Hm.
  change (extensionLabel (extId, extInfo))
    with ("Extension: " ++ name extInfo) in Hp, Hf.
  rewrite Hi, Hp, Hm, Hf, Hl. repeat split; congruence.
Qed.

(** "ritwickdey.LiveServer", as the editor lists it, against the required
    "ritwickdey.liveserver". *)
Lemma extension_match_ignores_case_witness :
  let liveServer :=
    mkExtInfo "Live Server" CRITICAL
              "Required to run local development server" in
  let st' := exec (checkExtensions fullEnv (Some "code")) initialState in
  exists lines ps fs,
    console st'
    = ([] ++ headerLines "Checking VS Code Extensions" ++ lines)%list /\
    passed (results st') = ([] ++ ps)%list /\
    failed (results st') = ([] ++ fs)%list /\
    In (installedLine liveServer) lines /\
    In "Extension: Live Server" ps /\
    ~ In (missingLine liveServer) lines /\
    ~ In "Extension: Live Server" fs.
Proof.
  cbv zeta.
  destruct (extension_match_ignores_case fullEnv initialState "code" _
              (linuxEnv_lowers _ _ _) eq_refl eq_refl eq_refl)
    as (lines & ps & fs & Hc & Hp & Hf & H).
  exists lines, ps, fs.
  split; [exact Hc | split; [exact Hp | split; [exact Hf |]]].
  apply (H "ritwickdey.liveserver"
           (mkExtInfo "Live Server" CRITICAL
                      "Required to run local development server")
           "ritwickdey.LiveServer").
  - cbn. tauto.
  - vm_compute. tauto.
  - reflexivity.
Defined.

(* ================================================================== *)
(** * The repository probe *)
(* ================================================================== *)



(* ================================================================== *)
(** * Two complete runs *)
(* ================================================================== *)

(** On the fully equipped machine every check passes. *)
Example full_run :
  results (exec (main fullEnv) initialState)
  = mkResults
      [ "Node.js installed"; "npm installed"; "VS Code in PATH";
        "Extension: GitLens"; "Extension: p5js Snippets";
        "Extension: P5 Project Creator"; "Extension: Live Server";
        "Extension: GitHub Actions"; "Git installed"; "Git user.name set";
        "Git user.email set"; "OCADU email configured"; "Git repository found";
        "Remote configured"; "GitHub repository"; "Branch: main";
        "Clean working directory" ]
      [] [] [] [] []
  /\ passRate (results (exec (main fullEnv) initialState)) = 100%Z.
Proof. split; vm_compute; reflexivity. Qed.

(** On the bare machine four commands are tried, and nothing passes. *)
Example bare_run :
  results (exec (main bareEnv) initialState)
  = mkResults []
      [ "Node.js not found"; "VS Code not found"; "Git not found" ]
      [ "npm not found"; "Not in Git repository" ]
      [ "VS Code is NOT installed"; "Git is NOT installed" ]
      [ "Node.js is NOT installed" ]
      []
  /\ executed (exec (main bareEnv) initialState)
     = [ "node --version"; "npm --version"; "which code"; "git --version" ]
  /\ passRate (results (exec (main bareEnv) initialState)) = 0%Z.
Proof. repeat split; vm_compute; reflexivity. Qed.
